(** * UET Department Agent: the guardrail / retrieval / answer workflow

    A shallow embedding of the request pipeline of the repository
    (src/nodes/reactnode.py, src/graph_builder/graph_builder.py and
    backend/main.py) together with the properties of its workflow contract.

    Conventions of the embedding.
    - Python text is a [string]: a sequence of characters, one [ascii] per
      character.  Case mapping and whitespace are those of the ASCII range;
      characters above 127 are left alone by [upper] and are never
      whitespace.
    - The Language Model, the Document Store retriever and the tool-using
      agent are external collaborators.  Each is a function of the events
      seen so far and of its argument, and it either answers or raises.
    - Every call to a collaborator is appended to the trace of the world, so
      that "is called once" and "is never called" are statements about the
      trace.
    - The trace holds the calls that the stages make themselves.  What the
      agent does while it is invoked (its own calls to the Language Model
      and to its tools, the retriever tool among them) is part of that one
      invocation and is not listed; no statement counts those calls.
    - Building the agent is taken to succeed; a failure of the two library
      calls that build it is not part of the model. *)

From Stdlib Require Import ZArith Ascii String DecimalString.
From stdpp Require Import base option list strings gmap.

(** ** Python text operations *)

Module Text.

(** [str.isspace] on one character, ASCII range: TAB, LF, VT, FF, CR,
    the four separators FS, GS, RS, US, and the space. *)
Definition isspace (c : ascii) : bool :=
  let n := nat_of_ascii c in
  ((9 <=? n)%nat && (n <=? 13)%nat) || ((28 <=? n)%nat && (n <=? 32)%nat).

Definition upper_char (c : ascii) : ascii :=
  let n := nat_of_ascii c in
  if ((97 <=? n)%nat && (n <=? 122)%nat) then ascii_of_nat (n - 32) else c.

(** [s.upper()] *)
Fixpoint upper (s : string) : string :=
  match s with
  | EmptyString => EmptyString
  | String c s' => String (upper_char c) (upper s')
  end.

(** [s.lstrip()] *)
Fixpoint lstrip (s : string) : string :=
  match s with
  | EmptyString => EmptyString
  | String c s' => if isspace c then lstrip s' else s
  end.

(** [s.rstrip()] *)
Fixpoint rstrip (s : string) : string :=
  match s with
  | EmptyString => EmptyString
  | String c s' =>
      match rstrip s' with
      | EmptyString => if isspace c then EmptyString else String c EmptyString
      | r => String c r
      end
  end.

(** [s.strip()] *)
Definition strip (s : string) : string := rstrip (lstrip s).

(** [sub in s] *)
Fixpoint contains (sub s : string) : bool :=
  String.prefix sub s ||
  match s with
  | EmptyString => false
  | String _ s' => contains sub s'
  end.

(** [s[:n]] *)
Definition slice_to (n : nat) (s : string) : string := String.substring 0 n s.

(** A line feed, for the string literals that contain one. *)
Definition nl : string := String (ascii_of_nat 10) EmptyString.

End Text.

(** ** Python values held in a metadata mapping *)

Inductive PyVal : Type :=
| PyNone
| PyBool (b : bool)
| PyInt (z : Z)
| PyStr (s : string).

(** Truth value of a Python object, as tested by [if x] and [x or y]. *)
Definition truthy (v : PyVal) : bool :=
  match v with
  | PyNone => false
  | PyBool b => b
  | PyInt z => negb (z =? 0)%Z
  | PyStr s => negb (String.eqb s "")
  end.

(** [str(v)], which is what a replacement field [{v}] of an f-string
    renders. *)
Definition py_str (v : PyVal) : string :=
  match v with
  | PyNone => "None"
  | PyBool true => "True"
  | PyBool false => "False"
  | PyInt z => NilZero.string_of_int (Z.to_int z)
  | PyStr s => s
  end.

(** ** Data model *)

(** A passage record: [langchain_core.documents.Document]. *)
Module Document.
Record t : Type := mk {
  page_content : string;
  metadata : gmap string PyVal
}.
End Document.

(** Modelled from the spec: the class [RAGState] of src/state/agent_state.py
    is not part of the sources at hand.  It is the workflow state of the
    data model: [question], the input text; [answer], a text that is empty
    until a stage sets it; [retrieved_docs], a sequence of passage records,
    empty until the Retrieval Stage fills it.  As for every pydantic model,
    [model_fields_set] holds the names of the fields that were passed to
    the constructor, so that a field "left unset" can be told from a field
    set to its default. *)
Module RAGState.
Record t : Type := mk {
  question : string;
  retrieved_docs : list Document.t;
  answer : string;
  model_fields_set : gset string
}.

(** The constructor call [RAGState(question=..., retrieved_docs=...,
    answer=...)]; [None] stands for a keyword that is not passed. *)
Definition new (question : string)
    (retrieved_docs : option (list Document.t)) (answer : option string) : t :=
  {| question := question;
     retrieved_docs := default [] retrieved_docs;
     answer := default "" answer;
     model_fields_set :=
       {["question"]}
       ∪ (match retrieved_docs with Some _ => {["retrieved_docs"]} | None => ∅ end)
       ∪ (match answer with Some _ => {["answer"]} | None => ∅ end) |}.
End RAGState.

(** The messages sent to the Language Model and to the agent. *)
Inductive Message : Type :=
| SystemMessage (content : string)
| HumanMessage (content : string).

(** A message of the agent's message sequence; [msg_content] is [None] when
    the object has no [content] attribute. *)
Record AgentMessage : Type := mkAgentMessage {
  msg_content : option string
}.

(** The mapping returned by the agent; [messages] is [None] when the key
    is missing. *)
Record AgentResult : Type := mkAgentResult {
  messages : option (list AgentMessage)
}.

(** The mapping returned by [run]: the fields of the final state, each one
    a key that may be present or not. *)
Record ResultDict : Type := mkResultDict {
  r_question : option string;
  r_retrieved_docs : option (list Document.t);
  r_answer : option string
}.

(** ** Effects: exceptions, the trace of calls, the objects' fields *)

Record Exn : Type := mkExn {
  exn_type : string;
  exn_msg : string   (* [str(e)] *)
}.

Inductive Event : Type :=
| EvPrint (line : string)
| EvLLM (msgs : list Message)          (* [llm.invoke(msgs)] *)
| EvRetrieve (query : string)          (* [retriever.invoke(query)] *)
| EvBuildAgent                         (* [create_react_agent(...)] *)
| EvAgent (msgs : list Message)        (* [agent.invoke({"messages": msgs})] *)
| EvStage (name : string).             (* the orchestrator starts a stage *)

(** The collaborators handed to [RAGNodes.__init__] (and the agent that
    [create_react_agent] builds from them).  The first argument is the
    trace so far: a collaborator need not answer the same way twice. *)
Record Collaborators : Type := mkCollaborators {
  llm_invoke : list Event → list Message → Exn + string;
  retriever_invoke : list Event → string → Exn + list Document.t;
  agent_invoke : list Event → list Message → Exn + AgentResult
}.

(** The functions a node of the graph can be bound to. *)
Inductive NodeFn : Type := Fn_guardrail | Fn_retrieve_docs | Fn_generate_answer.

(** The target of an edge: a named node, or the terminal [END]. *)
Inductive Target : Type := END | Node (name : string).

(** [StateGraph]: what the builder has been told. *)
Record StateGraph : Type := mkStateGraph {
  nodes : gmap string NodeFn;
  entry_point : option string;
  branches : gmap string ((RAGState.t → string) * gmap string Target);
  edges : gmap string Target
}.

Record World : Type := mkWorld {
  trace : list Event;
  agent_built : bool;          (* [RAGNodes._agent is not None] *)
  graph : option StateGraph    (* [GraphBuilder.graph] *)
}.

Definition init_world : World :=
  {| trace := []; agent_built := false; graph := None |}.

Inductive Res (A : Type) : Type :=
| Ok (a : A)
| Raised (e : Exn).
Arguments Ok {A} a.
Arguments Raised {A} e.

(** Computations that read and write the world and may raise. *)
Definition M (A : Type) : Type := World → Res A * World.

#[global] Instance M_ret : MRet M := λ A a w, (Ok a, w).
#[global] Instance M_bind : MBind M := λ A B f m w,
  match m w with
  | (Ok a, w') => f a w'
  | (Raised e, w') => (Raised e, w')
  end.

Definition raise {A} (e : Exn) : M A := λ w, (Raised e, w).

Definition emit (e : Event) : M unit := λ w,
  (Ok tt, {| trace := trace w ++ [e]; agent_built := agent_built w; graph := graph w |}).

Definition print (line : string) : M unit := emit (EvPrint line).

(** A call to a collaborator: the call is recorded, then the collaborator
    answers or raises. *)
Definition call {I O} (ev : I → Event) (f : list Event → I → Exn + O) (i : I) : M O :=
  λ w,
    let w' := {| trace := trace w ++ [ev i]; agent_built := agent_built w; graph := graph w |} in
    match f (trace w) i with
    | inl e => (Raised e, w')
    | inr o => (Ok o, w')
    end.

Definition get_agent_built : M bool := λ w, (Ok (agent_built w), w).
Definition set_agent_built : M unit := λ w,
  (Ok tt, {| trace := trace w; agent_built := true; graph := graph w |}).
Definition get_graph : M (option StateGraph) := λ w, (Ok (graph w), w).
Definition set_graph (g : StateGraph) : M unit := λ w,
  (Ok tt, {| trace := trace w; agent_built := agent_built w; graph := Some g |}).

(** ** The nodes: src/nodes/reactnode.py *)

Definition guardrail_system_prompt : string :=
  "You are a strict filter for a University Department chatbot. "
  +:+ "Your ONLY job is to classify if the question is about the University, "
  +:+ "Computer Science Department, Admissions, Faculty, Courses, or the Prospectus." +:+ Text.nl
  +:+ "Rules:" +:+ Text.nl
  +:+ "1. Greetings (Hi, Hello) -> Reply 'NO'" +:+ Text.nl
  +:+ "2. General Knowledge (What is Python?, Who is Obama?) -> Reply 'NO'" +:+ Text.nl
  +:+ "3. Department Questions (Who is the HOD?, Fee structure?) -> Reply 'YES'" +:+ Text.nl +:+ Text.nl
  +:+ "Reply strictly with 'YES' or 'NO'.".

(** The refusal sentinel. *)
Definition refusal : string := "I only answer department information.".

(** The fallback of the Answer Stage. *)
Definition fallback : string := "Could not generate answer.".

(** [a or d] for an optional text [a]. *)
Definition or_else (a : option string) (d : string) : string :=
  match a with
  | Some s => if String.eqb s "" then d else s
  | None => d
  end.

Section RAGNodes.

Variable self : Collaborators.

Definition guardrail (state : RAGState.t) : M RAGState.t :=
  print ("--- GUARDRAIL CHECKING: " +:+ RAGState.question state +:+ " ---");;
  let messages :=
    [SystemMessage guardrail_system_prompt; HumanMessage (RAGState.question state)] in
  response ← call EvLLM (llm_invoke self) messages;
  let decision := Text.upper (Text.strip response) in
  print ("--- GUARDRAIL DECISION: " +:+ decision +:+ " ---");;
  if Text.contains "NO" decision then
    mret (RAGState.new (RAGState.question state) None (Some refusal))
  else
    mret (RAGState.new (RAGState.question state) None (Some "")).

Definition retrieve_docs (state : RAGState.t) : M RAGState.t :=
  print "--- RETRIEVING DOCUMENTS ---";;
  docs ← call EvRetrieve (retriever_invoke self) (RAGState.question state);
  mret (RAGState.new (RAGState.question state) (Some docs) None).

Definition _build_agent : M unit :=
  emit EvBuildAgent;; set_agent_built.

Definition generate_answer (state : RAGState.t) : M RAGState.t :=
  built ← get_agent_built;
  (if built : bool then mret tt else _build_agent);;
  result ← call EvAgent (agent_invoke self) [HumanMessage (RAGState.question state)];
  let messages := default [] (messages result) in
  (* [last] is [None] exactly on the empty sequence *)
  let answer : option string :=
    match last messages with
    | Some answer_msg => msg_content answer_msg
    | None => None
    end in
  mret (RAGState.new (RAGState.question state) (Some (RAGState.retrieved_docs state))
                     (Some (or_else answer fallback))).

Definition run_node (fn : NodeFn) : RAGState.t → M RAGState.t :=
  match fn with
  | Fn_guardrail => guardrail
  | Fn_retrieve_docs => retrieve_docs
  | Fn_generate_answer => generate_answer
  end.

End RAGNodes.

(** ** The orchestrator: src/graph_builder/graph_builder.py *)

(** *** The builder interface of [StateGraph] *)

Definition new_StateGraph : StateGraph :=
  {| nodes := ∅; entry_point := None; branches := ∅; edges := ∅ |}.

Definition add_node (name : string) (fn : NodeFn) (b : StateGraph) : StateGraph :=
  {| nodes := <[name := fn]> (nodes b); entry_point := entry_point b;
     branches := branches b; edges := edges b |}.

Definition set_entry_point (name : string) (b : StateGraph) : StateGraph :=
  {| nodes := nodes b; entry_point := Some name;
     branches := branches b; edges := edges b |}.

Definition add_conditional_edges (source : string) (path : RAGState.t → string)
    (path_map : gmap string Target) (b : StateGraph) : StateGraph :=
  {| nodes := nodes b; entry_point := entry_point b;
     branches := <[source := (path, path_map)]> (branches b); edges := edges b |}.

Definition add_edge (start_key : string) (end_key : Target) (b : StateGraph) : StateGraph :=
  {| nodes := nodes b; entry_point := entry_point b;
     branches := branches b; edges := <[start_key := end_key]> (edges b) |}.

(** *** [GraphBuilder.build] *)

(** The text searched for by [check_guardrail]: the sentinel without its
    final full stop. *)
Definition refusal_marker : string := "I only answer department information".

Definition check_guardrail (state : RAGState.t) : string :=
  if negb (String.eqb (RAGState.answer state) "")
     && Text.contains refusal_marker (RAGState.answer state)
  then "end" else "continue".

Definition workflow : StateGraph :=
  let builder := new_StateGraph in
  (* 1. Add All Nodes *)
  let builder := add_node "guardrail" Fn_guardrail builder in
  let builder := add_node "retriever" Fn_retrieve_docs builder in
  let builder := add_node "responder" Fn_generate_answer builder in
  (* 2. Set Entry Point *)
  let builder := set_entry_point "guardrail" builder in
  (* 4. Add Conditional Edges *)
  let builder :=
    add_conditional_edges "guardrail" check_guardrail
      (<["end" := END]> (<["continue" := Node "retriever"]> ∅)) builder in
  (* 5. Connect the rest of the graph *)
  let builder := add_edge "retriever" (Node "responder") builder in
  let builder := add_edge "responder" END builder in
  builder.

Definition build : M StateGraph :=
  set_graph workflow;; mret workflow.

(** *** Running a compiled graph

    The execution of a [StateGraph] belongs to the graph library, not to
    the repository; this is the part of it that a graph whose nodes have one
    way out relies on, and it is the state machine of the workflow contract.
    The graph starts at its entry point.  A step runs the function of the
    current node on the current state, and the state it returns becomes the
    current state.  The next node is the target that the node's routing
    function selects, or else the target of its edge; the run ends at
    [END], and a run of more than [recursion_limit] steps is aborted. *)

Definition recursion_limit : nat := 25.

Definition next_target (g : StateGraph) (node : string) (state : RAGState.t) : Res Target :=
  match branches g !! node with
  | Some (path, path_map) =>
      match path_map !! path state with
      | Some t => Ok t
      | None => Raised (mkExn "KeyError" (path state))
      end
  | None => Ok (default END (edges g !! node))
  end.

Section GraphBuilder.

Variable self : Collaborators.

Fixpoint execute (g : StateGraph) (fuel : nat) (node : string)
    (state : RAGState.t) : M RAGState.t :=
  match fuel with
  | O => raise (mkExn "GraphRecursionError" "Recursion limit reached")
  | S fuel' =>
      match nodes g !! node with
      | None => raise (mkExn "KeyError" node)
      | Some fn =>
          emit (EvStage node);;
          state' ← run_node self fn state;
          match next_target g node state' with
          | Raised e => raise e
          | Ok END => mret state'
          | Ok (Node node') => execute g fuel' node' state'
          end
      end
  end.

(** The run hands back the fields of the final state as a mapping. *)
Definition to_dict (state : RAGState.t) : ResultDict :=
  {| r_question := Some (RAGState.question state);
     r_retrieved_docs := Some (RAGState.retrieved_docs state);
     r_answer := Some (RAGState.answer state) |}.

Definition invoke (g : StateGraph) (input : RAGState.t) : M ResultDict :=
  match entry_point g with
  | None => raise (mkExn "ValueError" "Graph has no entry point")
  | Some node =>
      final ← execute g recursion_limit node input;
      mret (to_dict final)
  end.

Definition run (question : string) : M ResultDict :=
  graph ← get_graph;
  g ← (match graph : option StateGraph with
        | None => build
        | Some g => mret g
        end);
  let initial_state := RAGState.new question None None in
  invoke g initial_state.

End GraphBuilder.

(** ** The chat endpoint: backend/main.py *)

Module ChatRequest.
Record t : Type := mk { message : string }.
End ChatRequest.

Module Citation.
Record t : Type := mk { source : string; page_content : string }.
End Citation.

Module ChatResponse.
Record t : Type := mk { answer : string; citations : list Citation.t }.
End ChatResponse.

Inductive HttpResponse : Type :=
| Http200 (body : ChatResponse.t)
| HTTPException (status_code : Z) (detail : string).

#[global] Instance Res_ret : MRet Res := λ A a, Ok a.
#[global] Instance Res_bind : MBind Res := λ A B f m,
  match m with
  | Ok a => f a
  | Raised e => Raised e
  end.

(** A field declared [str] accepts a text and nothing else.  The text of
    the exception is the validation library's own; the short text below
    stands in for it and no statement depends on it. *)
Definition validate_str (v : PyVal) : Res string :=
  match v with
  | PyStr s => Ok s
  | _ => Raised (mkExn "ValidationError" "Input should be a valid string")
  end.

(** The body of the loop over [result['retrieved_docs']]. *)
Definition cite (doc : Document.t) : Res Citation.t :=
  let meta := Document.metadata doc in
  let source_name := default (PyStr "Unknown Source") (meta !! "source") in
  let page_num := default (PyStr "") (meta !! "page") in
  let src_label :=
    if truthy page_num
    then PyStr (py_str source_name +:+ " (Page " +:+ py_str page_num +:+ ")")
    else source_name in
  source ← validate_str src_label;
  mret {| Citation.source := source;
          Citation.page_content :=
            Text.slice_to 200 (Document.page_content doc) +:+ "..." |}.

(** [rag_system] is the global of main.py: [None] until start-up has
    finished, then an object with a [run] method. *)
Definition chat_endpoint (rag_system : option (string → M ResultDict))
    (request : ChatRequest.t) : World → HttpResponse * World :=
  λ w,
    match rag_system with
    | None => (HTTPException 503 "System is still initializing", w)
    | Some rag_run =>
        match rag_run (ChatRequest.message request) w with
        | (Raised e, w') => (HTTPException 500 (exn_msg e), w')
        | (Ok result, w') =>
            let answer_text := default "" (r_answer result) in
            let citations : Res (list Citation.t) :=
              match r_retrieved_docs result with
              | Some ((_ :: _) as docs) => mapM cite docs
              | _ => Ok []
              end in
            match citations with
            | Ok cs =>
                (Http200 {| ChatResponse.answer := answer_text;
                            ChatResponse.citations := cs |}, w')
            | Raised e => (HTTPException 500 (exn_msg e), w')
            end
        end
    end.

(** The endpoint as the service wires it: [rag_system] is a
    [GraphBuilder]. *)
Definition chat (self : Collaborators) : ChatRequest.t → World → HttpResponse * World :=
  chat_endpoint (Some (run self)).

(** ** The citation label of the chat page: frontend/streamlit_app.py *)

(** The label the chat page gives a passage, [f"{source} (Page {page})"]. *)
Definition frontend_source (doc : Document.t) : string :=
  let meta := Document.metadata doc in
  let source := default (PyStr "Unknown") (meta !! "source") in
  let page := default (PyStr "N/A") (meta !! "page") in
  py_str source +:+ " (Page " +:+ py_str page +:+ ")".

(** ** The retriever tool of the agent: src/nodes/reactnode.py *)

(** [sep.join(parts)] *)
Fixpoint join (sep : string) (parts : list string) : string :=
  match parts with
  | [] => ""
  | p :: rest =>
      match rest with
      | [] => p
      | _ :: _ => p +:+ sep +:+ join sep rest
      end
  end.

(** [a or b] on Python values. *)
Definition py_or (a b : PyVal) : PyVal := if truthy a then a else b.

(** The body of the loop of [retriever_tool_fn]: the block of the passage
    numbered [i]. *)
Definition tool_block (i : nat) (d : Document.t) : string :=
  let meta := Document.metadata d in
  let title :=
    py_or (default PyNone (meta !! "title"))
      (py_or (default PyNone (meta !! "source"))
             (PyStr ("doc_" +:+ py_str (PyInt (Z.of_nat i))))) in
  "[" +:+ py_str (PyInt (Z.of_nat i)) +:+ "] " +:+ py_str title
  +:+ Text.nl +:+ Document.page_content d.

Definition retriever_tool_fn (self : Collaborators) (query : string) : M string :=
  docs ← call EvRetrieve (retriever_invoke self) query;
  match docs : list Document.t with
  | [] => mret "No documents found."
  | _ :: _ =>
      let merged := imap (λ i d, tool_block (S i) d) (take 8 docs) in
      mret (join (Text.nl +:+ Text.nl) merged)
  end.

(** ** The chat page: frontend/streamlit_app.py

    The calls that only draw on the page are left out; what is kept is the
    chat history of the session and the citations stored in it. *)

Module FrontCitation.
Record t : Type := mk { source : string; text : string }.
End FrontCitation.

(** A message of the chat history; a user message has no [citations]
    key. *)
Module ChatMessage.
Record t : Type := mk {
  role : string;
  content : string;
  citations : option (list FrontCitation.t)
}.
End ChatMessage.

(** The citations the page stores for an answer: [citation_data]. *)
Definition citation_data (answer_text : string)
    (retrieved_docs : option (list Document.t)) : list FrontCitation.t :=
  match retrieved_docs with
  | Some ((_ :: _) as docs) =>
      if negb (Text.contains "I only answer" answer_text) then
        (λ doc, {| FrontCitation.source := frontend_source doc;
                   FrontCitation.text :=
                     Text.slice_to 200 (Document.page_content doc) +:+ "..." |})
          <$> take 3 docs
      else []
  | _ => []
  end.

(** The part of [main] that handles a new input: the history after the
    prompt, and the exception that ends the script run, if any. *)
Definition handle_prompt (rag_system : option (string → M ResultDict))
    (prompt : string) (history : list ChatMessage.t)
    : World → (list ChatMessage.t * option Exn) * World :=
  λ w,
    let history :=
      history ++ [ {| ChatMessage.role := "user"; ChatMessage.content := prompt;
                      ChatMessage.citations := None |} ] in
    match rag_system with
    | None => ((history, None), w)
    | Some rag_run =>
        match rag_run prompt w with
        | (Raised e, w') => ((history, Some e), w')
        | (Ok result, w') =>
            match r_answer result with
            | None => ((history, Some (mkExn "KeyError" "'answer'")), w')
            | Some answer_text =>
                let cits := citation_data answer_text (r_retrieved_docs result) in
                ((history ++ [ {| ChatMessage.role := "assistant";
                                  ChatMessage.content := answer_text;
                                  ChatMessage.citations := Some cits |} ],
                  None), w')
            end
        end
    end.

(** ** Observations on a trace *)

(** The message lists of the Language Model calls, in order. *)
Definition llm_calls (tr : list Event) : list (list Message) :=
  omap (λ e, match e with EvLLM msgs => Some msgs | _ => None end) tr.

(** The queries of the Document Store calls, in order. *)
Definition retrieve_calls (tr : list Event) : list string :=
  omap (λ e, match e with EvRetrieve q => Some q | _ => None end) tr.

(** The stages the orchestrator has started, in order. *)
Definition stages (tr : list Event) : list string :=
  omap (λ e, match e with EvStage n => Some n | _ => None end) tr.

(** The messages of the agent calls, in order. *)
Definition agent_calls (tr : list Event) : list (list Message) :=
  omap (λ e, match e with EvAgent msgs => Some msgs | _ => None end) tr.

(** How many times an agent has been built. *)
Definition agent_builds (tr : list Event) : nat :=
  length (omap (λ e, match e with EvBuildAgent => Some () | _ => None end) tr).

(** ** The stage graph as a relation *)

(** [graph_edge g a b]: the graph has a way from node [a] to target [b],
    by an edge or by one entry of [a]'s routing table. *)
Definition graph_edge (g : StateGraph) (a : string) (b : Target) : Prop :=
  edges g !! a = Some b
  ∨ ∃ path path_map key, branches g !! a = Some (path, path_map) ∧ path_map !! key = Some b.

Definition node_step (g : StateGraph) (a b : string) : Prop := graph_edge g a (Node b).

(** No node can be reached from itself. *)
Definition acyclic (g : StateGraph) : Prop := ∀ n, ¬ tc (node_step g) n n.

(** The position of a stage in the pipeline. *)
Definition rank (n : string) : nat :=
  if String.eqb n "guardrail" then 0
  else if String.eqb n "retriever" then 1
  else if String.eqb n "responder" then 2
  else 3.

(** ** Concrete collaborators and passages, for the scenarios *)

Module Scenario.

Definition llm_replies (r : string) : list Event → list Message → Exn + string :=
  λ _ _, inr r.

Definition store_returns (docs : list Document.t)
    : list Event → string → Exn + list Document.t :=
  λ _ _, inr docs.

Definition agent_returns (res : AgentResult)
    : list Event → list Message → Exn + AgentResult :=
  λ _ _, inr res.

Definition says (text : string) : AgentResult :=
  {| messages := Some [ {| msg_content := Some "tool call" |};
                        {| msg_content := Some text |} ] |}.

Definition first_page : Document.t :=
  {| Document.page_content := "Department of Computer Science";
     Document.metadata := <["source" := PyStr "prospectus.pdf"]> (<["page" := PyInt 0]> ∅) |}.

Definition page_12 : Document.t :=
  {| Document.page_content := "The fee structure is given below.";
     Document.metadata := <["source" := PyStr "prospectus.pdf"]> (<["page" := PyInt 12]> ∅) |}.

Definition web_page : Document.t :=
  {| Document.page_content := "Admissions open in August.";
     Document.metadata := <["source" := PyStr "https://uet.edu.pk"]> ∅ |}.

(** The guardrail says NO. *)
Definition refusing : Collaborators :=
  {| llm_invoke := llm_replies " No. ";
     retriever_invoke := store_returns [page_12];
     agent_invoke := agent_returns (says "The HOD is Dr. X.") |}.

(** The guardrail says YES and the agent answers. *)
Definition answering : Collaborators :=
  {| llm_invoke := llm_replies "YES";
     retriever_invoke := store_returns [page_12; web_page];
     agent_invoke := agent_returns (says "The HOD is Dr. X.") |}.

(** The guardrail says YES and the agent's final message is the text of
    the refusal. *)
Definition parroting : Collaborators :=
  {| llm_invoke := llm_replies "YES";
     retriever_invoke := store_returns [page_12];
     agent_invoke := agent_returns (says refusal) |}.

(** The guardrail says YES and the agent produces no message. *)
Definition silent : Collaborators :=
  {| llm_invoke := llm_replies "YES";
     retriever_invoke := store_returns [page_12];
     agent_invoke := agent_returns {| messages := Some [] |} |}.

End Scenario.

(** ** Vocabulary of the statements *)

(** [sub] occurs somewhere in [s]. *)
Definition is_substring (sub s : string) : Prop :=
  ∃ pre post, s = pre +:+ sub +:+ post.

(** The world after the events [es] have been recorded. *)
Definition recorded (es : list Event) (w : World) : World :=
  {| trace := trace w ++ es; agent_built := agent_built w; graph := graph w |}.

(** The graph field of a [GraphBuilder] is empty or holds the graph that
    [build] stores there. *)
Definition well_formed (w : World) : Prop :=
  graph w = None ∨ graph w = Some workflow.

(** The world once [build] has stored the graph. *)
Definition with_graph (w : World) : World :=
  {| trace := trace w; agent_built := agent_built w; graph := Some workflow |}.

(** The two messages the guardrail sends for a question. *)
Definition guardrail_messages (question : string) : list Message :=
  [SystemMessage guardrail_system_prompt; HumanMessage question].

(** What the guardrail has printed when it calls the Language Model. *)
Definition guardrail_banner (question : string) : Event :=
  EvPrint ("--- GUARDRAIL CHECKING: " +:+ question +:+ " ---").

(** The guardrail's normal form of a reply. *)
Definition normalized (reply : string) : string := Text.upper (Text.strip reply).

(** The content of the final message of an agent result, if there is one. *)
Definition final_content (result : AgentResult) : option string :=
  last (default [] (messages result)) ≫= msg_content.

(** The events with which the Answer Stage gets its agent ready. *)
Definition agent_setup (w : World) : list Event :=
  if agent_built w then [] else [EvBuildAgent].

(** What the guardrail prints once it has the reply. *)
Definition decision_banner (reply : string) : Event :=
  EvPrint ("--- GUARDRAIL DECISION: " +:+ normalized reply +:+ " ---").

(** The trace of a run from world [w] at the moment the Language Model is
    called, ... *)
Definition guardrail_call_trace (w : World) (question : string) : list Event :=
  trace w ++ [EvStage "guardrail"; guardrail_banner question].

(** ... at the moment the Document Store is called, the guardrail having
    received [reply], ... *)
Definition store_call_trace (w : World) (question reply : string) : list Event :=
  guardrail_call_trace w question
  ++ [EvLLM (guardrail_messages question); decision_banner reply;
      EvStage "retriever"; EvPrint "--- RETRIEVING DOCUMENTS ---"].

(** ... and at the moment the agent is called. *)
Definition agent_call_trace (w : World) (question reply : string) : list Event :=
  store_call_trace w question reply
  ++ [EvRetrieve question; EvStage "responder"] ++ agent_setup w.

(** A result that carries the refusal sentinel together with passages. *)
Definition refusal_with_docs (res : ResultDict) : Prop :=
  r_answer res = Some refusal ∧ ∃ d ds, r_retrieved_docs res = Some (d :: ds).

(** A text made of whitespace only. *)
Fixpoint all_space (s : string) : bool :=
  match s with
  | EmptyString => true
  | String c s' => Text.isspace c && all_space s'
  end.

(** An exception that one of the collaborators has raised. *)
Definition raised_by_collaborator (self : Collaborators) (e : Exn) : Prop :=
  (∃ tr msgs, llm_invoke self tr msgs = inl e)
  ∨ (∃ tr q, retriever_invoke self tr q = inl e)
  ∨ (∃ tr msgs, agent_invoke self tr msgs = inl e).

(** * Properties *)

(** ** Text *)

Lemma append_nil_l (s : string) : "" +:+ s = s.
Proof. reflexivity. Qed.

Lemma append_cons (c : ascii) (s t : string) :
  String c s +:+ t = String c (s +:+ t).
Proof. reflexivity. Qed.

Lemma append_nil_r (s : string) : s +:+ "" = s.
Proof.
  induction s as [|c s IH]; [reflexivity|].
  rewrite append_cons. now f_equal.
Qed.

Lemma prefix_spec (sub s : string) :
  String.prefix sub s = true ↔ ∃ post, s = sub +:+ post.
Proof.
  revert s. induction sub as [|a sub IH]; intros s.
  - split; [intros _; now exists s | now destruct s].
  - destruct s as [|b s]; simpl.
    + split; [discriminate | intros [post H]; discriminate].
    + destruct (ascii_dec a b) as [->|Hne].
      * rewrite IH. split; intros [post H]; exists post.
        -- rewrite append_cons. now f_equal.
        -- rewrite append_cons in H. congruence.
      * split; [discriminate | intros [post H]].
        rewrite append_cons in H. congruence.
Qed.

Lemma contains_eq (sub s : string) :
  Text.contains sub s =
  String.prefix sub s
  || match s with EmptyString => false | String _ s' => Text.contains sub s' end.
Proof. destruct s; reflexivity. Qed.

Lemma contains_spec (sub s : string) :
  Text.contains sub s = true ↔ is_substring sub s.
Proof.
  unfold is_substring. split.
  - induction s as [|c s IH]; rewrite contains_eq, orb_true_iff.
    + intros [H | H]; [|discriminate].
      apply prefix_spec in H as [post H]. now exists "", post.
    + intros [H | H].
      * apply prefix_spec in H as [post H]. now exists "", post.
      * destruct (IH H) as (pre & post & ->). now exists (String c pre), post.
  - intros (pre & post & ->). induction pre as [|c pre IH].
    + rewrite append_nil_l, contains_eq.
      apply orb_true_iff. left. apply prefix_spec. now exists post.
    + rewrite append_cons, contains_eq, IH. apply orb_true_r.
Qed.

Lemma contains_false (sub s : string) :
  Text.contains sub s = false ↔ ¬ is_substring sub s.
Proof.
  rewrite <- contains_spec. destruct (Text.contains sub s); split; congruence.
Qed.

(** ** The monad and the trace *)

Lemma recorded_recorded (es1 es2 : list Event) (w : World) :
  recorded es2 (recorded es1 w) = recorded (es1 ++ es2) w.
Proof. unfold recorded; simpl. now rewrite app_assoc. Qed.

Lemma emit_eq (e : Event) (w : World) : emit e w = (Ok tt, recorded [e] w).
Proof. reflexivity. Qed.

Lemma call_eq {I O} (ev : I → Event) (f : list Event → I → Exn + O) (i : I) (w : World) :
  call ev f i w =
  match f (trace w) i with
  | inl e => (Raised e, recorded [ev i] w)
  | inr o => (Ok o, recorded [ev i] w)
  end.
Proof. reflexivity. Qed.

Lemma bind_eq {A B} (m : M A) (f : A → M B) (w : World) :
  (m ≫= f) w =
  match m w with
  | (Ok a, w') => f a w'
  | (Raised e, w') => (Raised e, w')
  end.
Proof. reflexivity. Qed.

Lemma llm_calls_app (tr1 tr2 : list Event) :
  llm_calls (tr1 ++ tr2) = llm_calls tr1 ++ llm_calls tr2.
Proof. apply omap_app. Qed.

Lemma retrieve_calls_app (tr1 tr2 : list Event) :
  retrieve_calls (tr1 ++ tr2) = retrieve_calls tr1 ++ retrieve_calls tr2.
Proof. apply omap_app. Qed.

Lemma stages_app (tr1 tr2 : list Event) :
  stages (tr1 ++ tr2) = stages tr1 ++ stages tr2.
Proof. apply omap_app. Qed.

(** ** The three stages, each as one equation *)

Section Stages.

Variable self : Collaborators.

Lemma guardrail_eq (state : RAGState.t) (w : World) :
  let q := RAGState.question state in
  guardrail self state w =
  match llm_invoke self (trace w ++ [guardrail_banner q]) (guardrail_messages q) with
  | inl e =>
      (Raised e, recorded [guardrail_banner q; EvLLM (guardrail_messages q)] w)
  | inr r =>
      (Ok (RAGState.new q None
             (Some (if Text.contains "NO" (normalized r) then refusal else ""))),
       recorded [guardrail_banner q; EvLLM (guardrail_messages q);
                 EvPrint ("--- GUARDRAIL DECISION: " +:+ normalized r +:+ " ---")] w)
  end.
Proof.
  intros q. unfold guardrail, print.
  rewrite bind_eq, emit_eq, bind_eq, call_eq. simpl trace.
  fold q. fold (guardrail_banner q). fold (guardrail_messages q).
  destruct (llm_invoke self _ _) as [e | r].
  - now rewrite recorded_recorded.
  - rewrite bind_eq, emit_eq, !recorded_recorded. fold (normalized r).
    now destruct (Text.contains "NO" (normalized r)).
Qed.

Lemma retrieve_docs_eq (state : RAGState.t) (w : World) :
  let q := RAGState.question state in
  let banner := EvPrint "--- RETRIEVING DOCUMENTS ---" in
  retrieve_docs self state w =
  match retriever_invoke self (trace w ++ [banner]) q with
  | inl e => (Raised e, recorded [banner; EvRetrieve q] w)
  | inr docs => (Ok (RAGState.new q (Some docs) None), recorded [banner; EvRetrieve q] w)
  end.
Proof.
  intros q banner. unfold retrieve_docs, print.
  rewrite bind_eq, emit_eq, bind_eq, call_eq. simpl trace. fold q banner.
  destruct (retriever_invoke self _ _) as [e | docs];
    now rewrite recorded_recorded.
Qed.

Lemma generate_answer_eq (state : RAGState.t) (w : World) :
  let q := RAGState.question state in
  let w1 :=
    if agent_built w then w
    else {| trace := trace w ++ [EvBuildAgent]; agent_built := true; graph := graph w |} in
  generate_answer self state w =
  match agent_invoke self (trace w ++ agent_setup w) [HumanMessage q] with
  | inl e => (Raised e, recorded [EvAgent [HumanMessage q]] w1)
  | inr result =>
      (Ok (RAGState.new q (Some (RAGState.retrieved_docs state))
             (Some (or_else (final_content result) fallback))),
       recorded [EvAgent [HumanMessage q]] w1)
  end.
Proof.
  intros q w1. unfold generate_answer.
  rewrite bind_eq. unfold get_agent_built at 1. rewrite bind_eq.
  assert (Hsetup :
    (if agent_built w then mret tt else _build_agent) w = (Ok tt, w1)).
  { unfold w1, agent_setup. destruct (agent_built w); reflexivity. }
  rewrite Hsetup, bind_eq, call_eq.
  assert (Htr : trace w1 = trace w ++ agent_setup w).
  { unfold w1, agent_setup. destruct (agent_built w); simpl;
      [now rewrite app_nil_r | reflexivity]. }
  rewrite Htr. fold q.
  destruct (agent_invoke self _ _) as [e | result]; [reflexivity|].
  unfold final_content. simpl.
  destruct (last (default [] (messages result))); reflexivity.
Qed.

End Stages.

(** ** The fields a constructor call sets *)

Lemma fields_set_new (q : string) (d : option (list Document.t)) (a : option string)
    (f : string) :
  f ∈ RAGState.model_fields_set (RAGState.new q d a)
  ↔ f = "question" ∨ (f = "retrieved_docs" ∧ is_Some d) ∨ (f = "answer" ∧ is_Some a).
Proof.
  unfold RAGState.new; simpl.
  rewrite !elem_of_union, elem_of_singleton.
  destruct d, a; rewrite ?elem_of_singleton, ?elem_of_empty;
    unfold is_Some; intuition (eauto; try discriminate);
    repeat match goal with H : ∃ _, _ |- _ => destruct H end; discriminate.
Qed.

Lemma unset_docs (q : string) (a : option string) :
  "retrieved_docs" ∉ RAGState.model_fields_set (RAGState.new q None a).
Proof.
  rewrite fields_set_new. intros [H | [[_ [? H]] | [H _]]]; discriminate.
Qed.

Lemma unset_answer (q : string) (d : option (list Document.t)) :
  "answer" ∉ RAGState.model_fields_set (RAGState.new q d None).
Proof.
  rewrite fields_set_new. intros [H | [[H _] | [_ [? H]]]]; discriminate.
Qed.

(** ** The Guardrail Stage *)

(** C1. Guardrail decision rule.  Whatever the Language Model replies, the
    guardrail calls it exactly once, with the classification prompt and the
    question, and returns a state.  The state's answer is the refusal
    sentinel if and only if "NO" occurs in the trimmed, uppercased reply;
    in that case the state is the question with the sentinel as answer and
    [retrieved_docs] left unset.  Otherwise the state is the question with
    the empty answer.  In both cases the question is passed through, so
    the outcome depends on the reply only through the occurrence of "NO"
    in its normal form. *)
Theorem guardrail_decision_rule
    (self : Collaborators) (state : RAGState.t) (w : World) (r : string) :
  llm_invoke self (trace w ++ [guardrail_banner (RAGState.question state)])
             (guardrail_messages (RAGState.question state)) = inr r →
  ∃ state' w',
    guardrail self state w = (Ok state', w')
    ∧ llm_calls (trace w') =
        llm_calls (trace w) ++ [guardrail_messages (RAGState.question state)]
    ∧ (RAGState.answer state' = refusal ↔ is_substring "NO" (normalized r))
    ∧ (is_substring "NO" (normalized r) →
         state' = RAGState.new (RAGState.question state) None (Some refusal))
    ∧ (¬ is_substring "NO" (normalized r) →
         state' = RAGState.new (RAGState.question state) None (Some ""))
    ∧ ("retrieved_docs" ∉ RAGState.model_fields_set state')
    ∧ RAGState.retrieved_docs state' = []
    ∧ RAGState.question state' = RAGState.question state.
Proof.
  intros Hreply. pose proof (guardrail_eq self state w) as Heq. simpl in Heq.
  rewrite Hreply in Heq. eexists _, _. split; [exact Heq|].
  split.
  { simpl. rewrite llm_calls_app. reflexivity. }
  destruct (Text.contains "NO" (normalized r)) eqn:Hc.
  - apply contains_spec in Hc.
    split; [split; [intros _; exact Hc | reflexivity]|].
    split; [reflexivity|]. split; [intros Hn; now destruct Hn|].
    split; [apply unset_docs|]. split; reflexivity.
  - apply contains_false in Hc.
    split; [split; [discriminate | intros Hn; now destruct Hc]|].
    split; [intros Hn; now destruct Hc|]. split; [reflexivity|].
    split; [apply unset_docs|]. split; reflexivity.
Qed.

Lemma guardrail_decision_rule_witness :
  llm_invoke Scenario.refusing
    (trace init_world ++ [guardrail_banner "Hi"]) (guardrail_messages "Hi") = inr " No. "
  ∧ ∃ state' w',
      guardrail Scenario.refusing (RAGState.new "Hi" None None) init_world = (Ok state', w')
      ∧ llm_calls (trace w') = llm_calls (trace init_world) ++ [guardrail_messages "Hi"]
      ∧ (RAGState.answer state' = refusal ↔ is_substring "NO" (normalized " No. "))
      ∧ (is_substring "NO" (normalized " No. ") →
           state' = RAGState.new "Hi" None (Some refusal))
      ∧ (¬ is_substring "NO" (normalized " No. ") →
           state' = RAGState.new "Hi" None (Some ""))
      ∧ ("retrieved_docs" ∉ RAGState.model_fields_set state')
      ∧ RAGState.retrieved_docs state' = []
      ∧ RAGState.question state' = "Hi".
Proof.
  split; [reflexivity|].
  apply (guardrail_decision_rule Scenario.refusing (RAGState.new "Hi" None None)
           init_world " No. ").
  reflexivity.
Defined.

(** ** The Retrieval Stage *)

(** C3. Retrieval Stage contract and frame.  On an in-domain state, that
    is a state whose answer is empty as the guardrail leaves it, and for
    whatever sequence the Document Store returns for the question,
    [retrieve_docs] returns a state whose [retrieved_docs] is that
    sequence, in that order, whose question is the same, and whose answer
    is the same; the answer is not among the fields the stage sets.  The
    store is queried once, with the question. *)
Theorem retrieve_docs_contract
    (self : Collaborators) (state : RAGState.t) (w : World) (docs : list Document.t) :
  RAGState.answer state = "" →
  retriever_invoke self (trace w ++ [EvPrint "--- RETRIEVING DOCUMENTS ---"])
                   (RAGState.question state) = inr docs →
  ∃ state' w',
    retrieve_docs self state w = (Ok state', w')
    ∧ RAGState.retrieved_docs state' = docs
    ∧ RAGState.question state' = RAGState.question state
    ∧ RAGState.answer state' = RAGState.answer state
    ∧ ("answer" ∉ RAGState.model_fields_set state')
    ∧ retrieve_calls (trace w') = retrieve_calls (trace w) ++ [RAGState.question state].
Proof.
  intros Hin Hdocs. pose proof (retrieve_docs_eq self state w) as Heq. simpl in Heq.
  rewrite Hdocs in Heq. eexists _, _. split; [exact Heq|].
  split; [reflexivity|]. split; [reflexivity|]. split; [now rewrite Hin|].
  split; [apply unset_answer|].
  simpl. now rewrite retrieve_calls_app.
Qed.

Lemma retrieve_docs_contract_witness :
  RAGState.answer (RAGState.new "Fee structure?" None (Some "")) = ""
  ∧ retriever_invoke Scenario.answering
      (trace init_world ++ [EvPrint "--- RETRIEVING DOCUMENTS ---"]) "Fee structure?"
    = inr [Scenario.page_12; Scenario.web_page]
  ∧ ∃ state' w',
      retrieve_docs Scenario.answering (RAGState.new "Fee structure?" None (Some ""))
        init_world = (Ok state', w')
      ∧ RAGState.retrieved_docs state' = [Scenario.page_12; Scenario.web_page]
      ∧ RAGState.question state' = "Fee structure?"
      ∧ RAGState.answer state' = ""
      ∧ ("answer" ∉ RAGState.model_fields_set state')
      ∧ retrieve_calls (trace w') = retrieve_calls (trace init_world) ++ ["Fee structure?"].
Proof.
  split; [reflexivity|]. split; [reflexivity|].
  apply (retrieve_docs_contract Scenario.answering
           (RAGState.new "Fee structure?" None (Some "")) init_world
           [Scenario.page_12; Scenario.web_page]); reflexivity.
Defined.

(** ** The Answer Stage *)

Lemma or_else_text (c d : string) : c ≠ "" → or_else (Some c) d = c.
Proof.
  intros Hc. unfold or_else. destruct (String.eqb_spec c ""); [contradiction | reflexivity].
Qed.

Lemma or_else_fallback (a : option string) (d : string) :
  a = None ∨ a = Some "" → or_else a d = d.
Proof. intros [-> | ->]; reflexivity. Qed.

Lemma final_content_no_messages (result : AgentResult) :
  messages result = None ∨ messages result = Some [] → final_content result = None.
Proof. unfold final_content. intros [-> | ->]; reflexivity. Qed.

(** C6. Answer Stage result extraction.  Whenever the agent returns,
    [generate_answer] returns a state.  Its answer is the content of the
    final message of the agent's message sequence when that content is a
    non-empty text.  When the agent produced no messages (the sequence is
    missing or empty), or when the final message has no content or an
    empty one, the answer is exactly "Could not generate answer.". *)
Theorem generate_answer_extraction
    (self : Collaborators) (state : RAGState.t) (w : World) (result : AgentResult) :
  agent_invoke self (trace w ++ agent_setup w)
               [HumanMessage (RAGState.question state)] = inr result →
  ∃ state' w',
    generate_answer self state w = (Ok state', w')
    ∧ (∀ c, final_content result = Some c → c ≠ "" → RAGState.answer state' = c)
    ∧ (messages result = None ∨ messages result = Some [] →
         RAGState.answer state' = "Could not generate answer.")
    ∧ (final_content result = None ∨ final_content result = Some "" →
         RAGState.answer state' = "Could not generate answer.").
Proof.
  intros Hres. pose proof (generate_answer_eq self state w) as Heq. simpl in Heq.
  rewrite Hres in Heq. eexists _, _. split; [exact Heq|].
  change (RAGState.answer (RAGState.new ?q ?d (Some ?a))) with a.
  split; [|split].
  - intros c Hc Hne. rewrite Hc. now apply or_else_text.
  - intros Hm. rewrite (final_content_no_messages _ Hm). reflexivity.
  - intros Hf. now apply or_else_fallback.
Qed.

Lemma generate_answer_extraction_witness :
  agent_invoke Scenario.answering (trace init_world ++ agent_setup init_world)
    [HumanMessage "Who is the HOD?"] = inr (Scenario.says "The HOD is Dr. X.")
  ∧ ∃ state' w',
      generate_answer Scenario.answering (RAGState.new "Who is the HOD?" None None)
        init_world = (Ok state', w')
      ∧ (∀ c, final_content (Scenario.says "The HOD is Dr. X.") = Some c → c ≠ "" →
           RAGState.answer state' = c)
      ∧ (messages (Scenario.says "The HOD is Dr. X.") = None
         ∨ messages (Scenario.says "The HOD is Dr. X.") = Some [] →
           RAGState.answer state' = "Could not generate answer.")
      ∧ (final_content (Scenario.says "The HOD is Dr. X.") = None
         ∨ final_content (Scenario.says "The HOD is Dr. X.") = Some "" →
           RAGState.answer state' = "Could not generate answer.").
Proof.
  split; [reflexivity|].
  apply (generate_answer_extraction Scenario.answering
           (RAGState.new "Who is the HOD?" None None) init_world
           (Scenario.says "The HOD is Dr. X.")).
  reflexivity.
Defined.

(** C7. Answer Stage frame.  Whatever the agent returns, [generate_answer]
    returns a state whose [retrieved_docs] and whose [question] are those
    of the input state. *)
Theorem generate_answer_frame
    (self : Collaborators) (state : RAGState.t) (w : World) (result : AgentResult) :
  agent_invoke self (trace w ++ agent_setup w)
               [HumanMessage (RAGState.question state)] = inr result →
  ∃ state' w',
    generate_answer self state w = (Ok state', w')
    ∧ RAGState.retrieved_docs state' = RAGState.retrieved_docs state
    ∧ RAGState.question state' = RAGState.question state.
Proof.
  intros Hres. pose proof (generate_answer_eq self state w) as Heq. simpl in Heq.
  rewrite Hres in Heq. eexists _, _. split; [exact Heq|].
  split; reflexivity.
Qed.

Lemma generate_answer_frame_witness :
  agent_invoke Scenario.silent (trace init_world ++ agent_setup init_world)
    [HumanMessage "Fee structure?"] = inr {| messages := Some [] |}
  ∧ ∃ state' w',
      generate_answer Scenario.silent
        (RAGState.new "Fee structure?" (Some [Scenario.page_12]) None) init_world
      = (Ok state', w')
      ∧ RAGState.retrieved_docs state' = [Scenario.page_12]
      ∧ RAGState.question state' = "Fee structure?".
Proof.
  split; [reflexivity|].
  apply (generate_answer_frame Scenario.silent
           (RAGState.new "Fee structure?" (Some [Scenario.page_12]) None) init_world
           {| messages := Some [] |}).
  reflexivity.
Defined.


(** ** The compiled graph *)

Lemma workflow_entry : entry_point workflow = Some "guardrail".
Proof. reflexivity. Qed.

Lemma workflow_nodes :
  nodes workflow !! "guardrail" = Some Fn_guardrail
  ∧ nodes workflow !! "retriever" = Some Fn_retrieve_docs
  ∧ nodes workflow !! "responder" = Some Fn_generate_answer.
Proof. repeat split; reflexivity. Qed.

Lemma workflow_branches :
  branches workflow =
  <["guardrail" := (check_guardrail,
                    <["end" := END]> (<["continue" := Node "retriever"]> ∅))]> ∅.
Proof. reflexivity. Qed.

Lemma workflow_edges :
  edges workflow = <["responder" := END]> (<["retriever" := Node "responder"]> ∅).
Proof. reflexivity. Qed.

Lemma marker_not_in_empty : Text.contains refusal_marker "" = false.
Proof. reflexivity. Qed.

Lemma marker_in_refusal : Text.contains refusal_marker refusal = true.
Proof. reflexivity. Qed.

Lemma check_guardrail_eq (state : RAGState.t) :
  check_guardrail state =
  if Text.contains refusal_marker (RAGState.answer state) then "end" else "continue".
Proof.
  unfold check_guardrail.
  destruct (String.eqb_spec (RAGState.answer state) "") as [-> | _];
    [now rewrite marker_not_in_empty | reflexivity].
Qed.

Lemma next_guardrail (state : RAGState.t) :
  next_target workflow "guardrail" state =
  Ok (if Text.contains refusal_marker (RAGState.answer state)
      then END else Node "retriever").
Proof.
  unfold next_target. rewrite workflow_branches, lookup_insert_eq, check_guardrail_eq.
  now destruct (Text.contains refusal_marker (RAGState.answer state)).
Qed.

Lemma next_retriever (state : RAGState.t) :
  next_target workflow "retriever" state = Ok (Node "responder").
Proof. reflexivity. Qed.

Lemma next_responder (state : RAGState.t) :
  next_target workflow "responder" state = Ok END.
Proof. reflexivity. Qed.

(** ** The orchestrator's state machine *)

(** C2. Orchestrator state machine.  The workflow starts at the guardrail.
    For every state the guardrail can leave behind, the workflow goes from
    the guardrail straight to the terminal state exactly when the answer
    contains the refusal marker, and to the retriever exactly when it does
    not.  From the retriever it always goes to the responder, and from the
    responder always to the terminal state. *)
Theorem orchestrator_transitions (state : RAGState.t) :
  entry_point workflow = Some "guardrail"
  ∧ (next_target workflow "guardrail" state = Ok END
     ↔ is_substring "I only answer department information" (RAGState.answer state))
  ∧ (next_target workflow "guardrail" state = Ok (Node "retriever")
     ↔ ¬ is_substring "I only answer department information" (RAGState.answer state))
  ∧ next_target workflow "retriever" state = Ok (Node "responder")
  ∧ next_target workflow "responder" state = Ok END.
Proof.
  split; [reflexivity|].
  rewrite next_guardrail.
  change "I only answer department information" with refusal_marker.
  destruct (Text.contains refusal_marker (RAGState.answer state)) eqn:Hc.
  - apply contains_spec in Hc.
    split; [tauto|]. split; [|split; reflexivity].
    split; [discriminate | tauto].
  - apply contains_false in Hc.
    split; [|split; [tauto | split; reflexivity]].
    split; [discriminate | tauto].
Qed.

(** Every edge of the workflow leads to a later stage. *)
Lemma node_step_rank (a b : string) : node_step workflow a b → rank a < rank b.
Proof.
  unfold node_step, graph_edge. rewrite workflow_edges, workflow_branches.
  intros [H | (path & path_map & key & H1 & H2)].
  - apply lookup_insert_Some in H as [[<- H] | [_ H]]; [discriminate|].
    apply lookup_insert_Some in H as [[<- H] | [_ H]].
    + injection H as <-. compute. lia.
    + rewrite lookup_empty in H. discriminate.
  - apply lookup_insert_Some in H1 as [[<- H1] | [_ H1]].
    + injection H1 as _ <-.
      apply lookup_insert_Some in H2 as [[_ H2] | [_ H2]]; [discriminate|].
      apply lookup_insert_Some in H2 as [[_ H2] | [_ H2]].
      * injection H2 as <-. compute. lia.
      * rewrite lookup_empty in H2. discriminate.
    + rewrite lookup_empty in H1. discriminate.
Qed.

Lemma workflow_acyclic : acyclic workflow.
Proof.
  assert (Hrank : ∀ a b, tc (node_step workflow) a b → rank a < rank b).
  { induction 1 as [a b H | a b c H _ IH].
    - now apply node_step_rank.
    - apply node_step_rank in H. lia. }
  intros n Hn. apply Hrank in Hn. lia.
Qed.

(** ** A run, stage by stage *)

Section Run.

Variable self : Collaborators.

Lemma execute_step (g : StateGraph) (fuel : nat) (node : string)
    (state : RAGState.t) (w : World) :
  execute self g (S fuel) node state w =
  match nodes g !! node with
  | None => (Raised (mkExn "KeyError" node), w)
  | Some fn =>
      match run_node self fn state (recorded [EvStage node] w) with
      | (Raised e, w') => (Raised e, w')
      | (Ok state', w') =>
          match next_target g node state' with
          | Raised e => (Raised e, w')
          | Ok END => (Ok state', w')
          | Ok (Node node') => execute self g fuel node' state' w'
          end
      end
  end.
Proof.
  simpl. destruct (nodes g !! node) as [fn|]; [|reflexivity].
  rewrite bind_eq, emit_eq, bind_eq.
  destruct (run_node self fn state (recorded [EvStage node] w)) as [[state'|e] w'];
    [|reflexivity].
  destruct (next_target g node state') as [[|node']|e]; reflexivity.
Qed.

(** The workflow is the guardrail, then, unless the answer carries the
    refusal marker, the retriever and the responder. *)
Lemma invoke_workflow (input : RAGState.t) (w : World) :
  invoke self workflow input w =
  match guardrail self input (recorded [EvStage "guardrail"] w) with
  | (Raised e, w1) => (Raised e, w1)
  | (Ok s1, w1) =>
      if Text.contains refusal_marker (RAGState.answer s1)
      then (Ok (to_dict s1), w1)
      else
        match retrieve_docs self s1 (recorded [EvStage "retriever"] w1) with
        | (Raised e, w2) => (Raised e, w2)
        | (Ok s2, w2) =>
            match generate_answer self s2 (recorded [EvStage "responder"] w2) with
            | (Raised e, w3) => (Raised e, w3)
            | (Ok s3, w3) => (Ok (to_dict s3), w3)
            end
        end
  end.
Proof.
  destruct workflow_nodes as (Hg & Hr & Ha).
  unfold invoke. rewrite workflow_entry, bind_eq.
  unfold recursion_limit. rewrite execute_step, Hg. simpl run_node.
  destruct (guardrail self input _) as [[s1|e] w1]; [|reflexivity].
  rewrite next_guardrail.
  destruct (Text.contains refusal_marker (RAGState.answer s1)); [reflexivity|].
  rewrite execute_step, Hr. simpl run_node.
  destruct (retrieve_docs self s1 _) as [[s2|e] w2]; [|reflexivity].
  rewrite next_retriever, execute_step, Ha. simpl run_node.
  destruct (generate_answer self s2 _) as [[s3|e] w3]; [|reflexivity].
  rewrite next_responder. reflexivity.
Qed.

Lemma run_eq (question : string) (w : World) :
  well_formed w →
  run self question w =
  invoke self workflow (RAGState.new question None None) (with_graph w).
Proof.
  intros [Hw | Hw]; unfold run; rewrite bind_eq; unfold get_graph; rewrite Hw, bind_eq.
  - reflexivity.
  - replace (with_graph w) with w; [reflexivity|].
    destruct w; simpl in Hw; subst; reflexivity.
Qed.

End Run.


Section Paths.

Variable self : Collaborators.

(** The five ways a run can go, each with its result and its final world. *)
Lemma run_paths (question : string) (w : World) :
  well_formed w →
  let msgs := guardrail_messages question in
  let world tr built :=
    {| trace := tr; agent_built := built; graph := Some workflow |} in
  match llm_invoke self (guardrail_call_trace w question) msgs with
  | inl e =>
      run self question w =
      (Raised e, world (guardrail_call_trace w question ++ [EvLLM msgs]) (agent_built w))
  | inr r =>
      if Text.contains "NO" (normalized r) then
        run self question w =
        (Ok {| r_question := Some question; r_retrieved_docs := Some [];
               r_answer := Some refusal |},
         world (guardrail_call_trace w question ++ [EvLLM msgs; decision_banner r])
               (agent_built w))
      else
        match retriever_invoke self (store_call_trace w question r) question with
        | inl e =>
            run self question w =
            (Raised e,
             world (store_call_trace w question r ++ [EvRetrieve question])
                   (agent_built w))
        | inr docs =>
            match agent_invoke self (agent_call_trace w question r)
                    [HumanMessage question] with
            | inl e =>
                run self question w =
                (Raised e,
                 world (agent_call_trace w question r ++ [EvAgent [HumanMessage question]])
                       true)
            | inr result =>
                run self question w =
                (Ok {| r_question := Some question; r_retrieved_docs := Some docs;
                       r_answer := Some (or_else (final_content result) fallback) |},
                 world (agent_call_trace w question r ++ [EvAgent [HumanMessage question]])
                       true)
            end
        end
  end.
Proof.
  intros Hw msgs world. rewrite (run_eq self question w Hw), invoke_workflow.
  pose proof (guardrail_eq self (RAGState.new question None None)
                (recorded [EvStage "guardrail"] (with_graph w))) as Hg.
  simpl in Hg. rewrite <- app_assoc in Hg. simpl in Hg.
  fold (guardrail_call_trace w question) in Hg. rewrite Hg. clear Hg.
  fold msgs. destruct (llm_invoke self _ msgs) as [e | r].
  { unfold recorded, world, guardrail_call_trace. simpl.
    rewrite <- !app_assoc. reflexivity. }
  fold (decision_banner r).
  destruct (Text.contains "NO" (normalized r)).
  { change (RAGState.answer (RAGState.new question None (Some refusal))) with refusal.
    rewrite marker_in_refusal.
    unfold recorded, world, guardrail_call_trace, to_dict. simpl.
    rewrite <- !app_assoc. reflexivity. }
  change (RAGState.answer (RAGState.new question None (Some ""))) with "".
  rewrite marker_not_in_empty, !recorded_recorded.
  pose proof (retrieve_docs_eq self (RAGState.new question None (Some ""))
    (recorded ([EvStage "guardrail"] ++
               [guardrail_banner question; EvLLM msgs; decision_banner r] ++
               [EvStage "retriever"]) (with_graph w))) as Hr.
  cbn [trace agent_built graph recorded with_graph RAGState.question RAGState.new] in Hr.
  assert (Ht2 :
    (trace w ++ [EvStage "guardrail"] ++
       [guardrail_banner question; EvLLM msgs; decision_banner r] ++
       [EvStage "retriever"]) ++ [EvPrint "--- RETRIEVING DOCUMENTS ---"]
    = store_call_trace w question r).
  { unfold store_call_trace, guardrail_call_trace.
    rewrite <- !app_assoc. reflexivity. }
  rewrite Ht2 in Hr. rewrite Hr. clear Hr.
  destruct (retriever_invoke self _ question) as [e | docs].
  { rewrite recorded_recorded. unfold recorded, world, with_graph.
    cbn [trace agent_built graph]. rewrite <- Ht2, <- !app_assoc. reflexivity. }
  rewrite !recorded_recorded.
  match goal with
  | |- context [generate_answer self _ (recorded ?l (with_graph w))] => set (es := l)
  end.
  pose proof (generate_answer_eq self (RAGState.new question (Some docs) None)
                (recorded es (with_graph w))) as Ha.
  cbn [trace agent_built graph recorded with_graph RAGState.question
       RAGState.retrieved_docs RAGState.new] in Ha.
  change (agent_setup _) with (agent_setup w) in Ha.
  assert (Ht3 : (trace w ++ es) ++ agent_setup w = agent_call_trace w question r).
  { unfold agent_call_trace, store_call_trace, guardrail_call_trace, es.
    rewrite <- !app_assoc. reflexivity. }
  rewrite Ht3 in Ha. rewrite Ha. clear Ha.
  destruct (agent_invoke self _ _) as [e | result];
    (f_equal; rewrite <- Ht3; unfold agent_setup, recorded, world, with_graph;
     destruct (agent_built w); cbn [trace agent_built graph];
     rewrite ?app_nil_r; reflexivity).
Qed.

Lemma stages_guardrail_call (question : string) (w : World) :
  stages (guardrail_call_trace w question) = stages (trace w) ++ ["guardrail"].
Proof. unfold guardrail_call_trace. rewrite stages_app. reflexivity. Qed.

Lemma stages_store_call (question r : string) (w : World) :
  stages (store_call_trace w question r) = stages (trace w) ++ ["guardrail"; "retriever"].
Proof.
  unfold store_call_trace. rewrite stages_app, stages_guardrail_call, <- app_assoc.
  reflexivity.
Qed.

Lemma stages_agent_call (question r : string) (w : World) :
  stages (agent_call_trace w question r) =
  stages (trace w) ++ ["guardrail"; "retriever"; "responder"].
Proof.
  unfold agent_call_trace. rewrite !stages_app, stages_store_call, <- app_assoc.
  unfold agent_setup. destruct (agent_built w); reflexivity.
Qed.

Lemma retrieve_calls_guardrail_call (question : string) (w : World) :
  retrieve_calls (guardrail_call_trace w question) = retrieve_calls (trace w).
Proof.
  unfold guardrail_call_trace. rewrite retrieve_calls_app. apply app_nil_r.
Qed.

End Paths.

(** ** The refusal path *)

(** C5. Out-of-domain questions.  When the guardrail's reply, trimmed and
    uppercased, contains "NO", the Guardrail Stage sets the answer to
    exactly the refusal sentinel, and the run ends there: the guardrail is
    the only stage started, the only events of the run are the guardrail's
    two prints and its one Language Model call, so the Document Store is
    never queried, and [run] returns the sentinel as answer with an empty
    [retrieved_docs]. *)
Theorem refusal_path
    (self : Collaborators) (question : string) (w : World) (r : string) :
  well_formed w →
  llm_invoke self (guardrail_call_trace w question) (guardrail_messages question) = inr r →
  is_substring "NO" (normalized r) →
  ∃ w',
    run self question w =
      (Ok {| r_question := Some question; r_retrieved_docs := Some [];
             r_answer := Some "I only answer department information." |}, w')
    ∧ guardrail self (RAGState.new question None None)
        (recorded [EvStage "guardrail"] (with_graph w))
      = (Ok (RAGState.new question None (Some "I only answer department information.")),
         w')
    ∧ trace w' =
        trace w ++ [EvStage "guardrail"; guardrail_banner question;
                    EvLLM (guardrail_messages question); decision_banner r]
    ∧ retrieve_calls (trace w') = retrieve_calls (trace w)
    ∧ stages (trace w') = stages (trace w) ++ ["guardrail"].
Proof.
  intros Hw Hreply Hno. apply contains_spec in Hno.
  pose proof (run_paths self question w Hw) as Hrun. simpl in Hrun.
  rewrite Hreply, Hno in Hrun. eexists. split; [exact Hrun|].
  cbn [trace]. split; [|split; [|split]].
  - pose proof (guardrail_eq self (RAGState.new question None None)
                  (recorded [EvStage "guardrail"] (with_graph w))) as Hg.
    cbn [trace agent_built graph recorded with_graph RAGState.question RAGState.new] in Hg.
    rewrite <- app_assoc in Hg.
    change ([EvStage "guardrail"] ++ [guardrail_banner question])
      with [EvStage "guardrail"; guardrail_banner question] in Hg.
    fold (guardrail_call_trace w question) in Hg.
    rewrite Hreply in Hg. fold (normalized r) in Hg. rewrite Hno in Hg.
    rewrite Hg, recorded_recorded. f_equal.
    unfold recorded, with_graph, guardrail_call_trace, decision_banner.
    cbn [trace agent_built graph]. rewrite <- !app_assoc. reflexivity.
  - unfold guardrail_call_trace. rewrite <- app_assoc. reflexivity.
  - rewrite retrieve_calls_app, retrieve_calls_guardrail_call. apply app_nil_r.
  - rewrite stages_app, stages_guardrail_call, <- app_assoc. reflexivity.
Qed.

Lemma refusal_path_witness :
  well_formed init_world
  ∧ llm_invoke Scenario.refusing (guardrail_call_trace init_world "Hi")
      (guardrail_messages "Hi") = inr " No. "
  ∧ is_substring "NO" (normalized " No. ")
  ∧ ∃ w',
      run Scenario.refusing "Hi" init_world =
        (Ok {| r_question := Some "Hi"; r_retrieved_docs := Some [];
               r_answer := Some "I only answer department information." |}, w')
      ∧ guardrail Scenario.refusing (RAGState.new "Hi" None None)
          (recorded [EvStage "guardrail"] (with_graph init_world))
        = (Ok (RAGState.new "Hi" None (Some "I only answer department information.")),
           w')
      ∧ trace w' =
          trace init_world ++ [EvStage "guardrail"; guardrail_banner "Hi";
                               EvLLM (guardrail_messages "Hi"); decision_banner " No. "]
      ∧ retrieve_calls (trace w') = retrieve_calls (trace init_world)
      ∧ stages (trace w') = stages (trace init_world) ++ ["guardrail"].
Proof.
  assert (Hno : is_substring "NO" (normalized " No. ")) by now exists "", ".".
  split; [left; reflexivity|]. split; [reflexivity|]. split; [exact Hno|].
  apply (refusal_path Scenario.refusing "Hi" init_world " No. ");
    [left; reflexivity | reflexivity | exact Hno].
Defined.

(** ** The sentinel and the passages *)

Lemma or_else_refusal (a : option string) :
  or_else a fallback = refusal → a = Some refusal.
Proof.
  destruct a as [c|]; simpl; [|discriminate].
  destruct (String.eqb_spec c ""); [discriminate | congruence].
Qed.

(** C4, as stated, fails: the guardrail lets the question through, the
    store returns a passage, and the agent's final message is the text of
    the refusal.  [run] then returns the sentinel together with the
    passage. *)
Lemma refusal_with_docs_reachable :
  ∃ w',
    run Scenario.parroting "Who is the HOD?" init_world =
      (Ok {| r_question := Some "Who is the HOD?";
             r_retrieved_docs := Some [Scenario.page_12];
             r_answer := Some "I only answer department information." |}, w')
    ∧ refusal_with_docs
        {| r_question := Some "Who is the HOD?";
           r_retrieved_docs := Some [Scenario.page_12];
           r_answer := Some "I only answer department information." |}.
Proof.
  exists (snd (run Scenario.parroting "Who is the HOD?" init_world)). split.
  - apply injective_projections; [vm_compute; reflexivity | reflexivity].
  - split; [reflexivity | now exists Scenario.page_12, []].
Qed.

(** C4, amended.  For every input question, Language Model reply and
    Document Store result, and for every agent whose final message in the
    run is not itself the text of the refusal sentinel, [run] never returns
    a state in which the answer is the sentinel and [retrieved_docs] is
    non-empty. *)
Theorem refusal_without_docs
    (self : Collaborators) (question : string) (w w' : World) (res : ResultDict) :
  well_formed w →
  (∀ r result,
     agent_invoke self (agent_call_trace w question r) [HumanMessage question]
       = inr result →
     final_content result ≠ Some "I only answer department information.") →
  run self question w = (Ok res, w') →
  ¬ refusal_with_docs res.
Proof.
  intros Hw Hagent Hrun [Hans (d & ds & Hdocs)].
  pose proof (run_paths self question w Hw) as Hp. simpl in Hp.
  destruct (llm_invoke self _ _) as [e | r]; [congruence|].
  destruct (Text.contains "NO" (normalized r)).
  { rewrite Hp in Hrun. injection Hrun as <- _. discriminate. }
  destruct (retriever_invoke self _ _) as [e | docs]; [congruence|].
  destruct (agent_invoke self _ _) as [e | result] eqn:Ha; [congruence|].
  rewrite Hp in Hrun. injection Hrun as <- _. simpl in Hans.
  injection Hans as Hans. apply or_else_refusal in Hans.
  exact (Hagent r result Ha Hans).
Qed.

Lemma refusal_without_docs_witness :
  well_formed init_world
  ∧ ¬ refusal_with_docs
        {| r_question := Some "Who is the HOD?";
           r_retrieved_docs := Some [Scenario.page_12; Scenario.web_page];
           r_answer := Some "The HOD is Dr. X." |}.
Proof.
  split; [left; reflexivity|].
  apply (refusal_without_docs Scenario.answering "Who is the HOD?" init_world
           (snd (run Scenario.answering "Who is the HOD?" init_world))).
  - left; reflexivity.
  - intros r result Hres. injection Hres as <-. discriminate.
  - apply injective_projections; [vm_compute; reflexivity | reflexivity].
Defined.

(** ** Termination *)

(** C8. Termination bound.  The stage graph has no cycle.  Every run ends,
    having started the guardrail alone, or the guardrail and the retriever,
    or the guardrail, the retriever and the responder, in that order: at
    most three stages, the agent's own tool loop being one step of the
    responder.  A run that does not return a result was stopped by an
    exception of a collaborator, never by the recursion limit. *)
Theorem run_stage_bound (self : Collaborators) (question : string) (w : World) :
  well_formed w →
  acyclic workflow
  ∧ ∃ out w' ss,
      run self question w = (out, w')
      ∧ stages (trace w') = stages (trace w) ++ ss
      ∧ (ss = ["guardrail"]
         ∨ ss = ["guardrail"; "retriever"]
         ∨ ss = ["guardrail"; "retriever"; "responder"])
      ∧ length ss ≤ 3
      ∧ (∀ e, out = Raised e → raised_by_collaborator self e).
Proof.
  intros Hw. split; [apply workflow_acyclic|].
  pose proof (run_paths self question w Hw) as Hp. simpl in Hp.
  destruct (llm_invoke self _ _) as [e | r] eqn:Hllm.
  { eexists (Raised e), _, ["guardrail"]. split; [exact Hp|]. cbn [trace].
    rewrite stages_app, stages_guardrail_call, <- app_assoc.
    repeat split; auto.
    intros e' [= <-]. left. eauto. }
  destruct (Text.contains "NO" (normalized r)).
  { eexists _, _, ["guardrail"]. split; [exact Hp|]. cbn [trace].
    rewrite stages_app, stages_guardrail_call, <- app_assoc.
    repeat split; auto. discriminate. }
  destruct (retriever_invoke self _ _) as [e | docs] eqn:Hstore.
  { eexists (Raised e), _, ["guardrail"; "retriever"]. split; [exact Hp|]. cbn [trace].
    rewrite stages_app, stages_store_call, <- app_assoc.
    repeat split; auto.
    intros e' [= <-]. right; left. eauto. }
  destruct (agent_invoke self _ _) as [e | result] eqn:Hagent.
  - eexists (Raised e), _, ["guardrail"; "retriever"; "responder"].
    split; [exact Hp|]. cbn [trace].
    rewrite stages_app, stages_agent_call, <- app_assoc.
    repeat split; auto.
    intros e' [= <-]. right; right. eauto.
  - eexists _, _, ["guardrail"; "retriever"; "responder"].
    split; [exact Hp|]. cbn [trace].
    rewrite stages_app, stages_agent_call, <- app_assoc.
    repeat split; auto. discriminate.
Qed.

Lemma run_stage_bound_witness :
  well_formed init_world
  ∧ acyclic workflow
  ∧ ∃ out w' ss,
      run Scenario.answering "Who is the HOD?" init_world = (out, w')
      ∧ stages (trace w') = stages (trace init_world) ++ ss
      ∧ (ss = ["guardrail"]
         ∨ ss = ["guardrail"; "retriever"]
         ∨ ss = ["guardrail"; "retriever"; "responder"])
      ∧ length ss ≤ 3
      ∧ (∀ e, out = Raised e → raised_by_collaborator Scenario.answering e).
Proof.
  split; [left; reflexivity|].
  apply (run_stage_bound Scenario.answering "Who is the HOD?" init_world).
  left; reflexivity.
Defined.


(** ** Citations *)

Lemma append_self_nil (s t : string) : s = s +:+ t → t = "".
Proof.
  induction s as [|c s IH]; [intros H; symmetry; exact H|].
  rewrite append_cons. intros [= H]. auto.
Qed.

(** [s[:n]] is the first [n] characters of [s], or all of [s] when it has
    fewer. *)
Lemma slice_to_spec (n : nat) (s : string) :
  ∃ rest, s = Text.slice_to n s +:+ rest
          ∧ String.length (Text.slice_to n s) = Nat.min n (String.length s).
Proof.
  unfold Text.slice_to. revert s. induction n as [|n IH]; intros s.
  - exists s. destruct s; split; reflexivity.
  - destruct s as [|c s].
    + exists "". split; reflexivity.
    + destruct (IH s) as (rest & Hs & Hlen). exists rest. simpl.
      rewrite append_cons, <- Hs, Hlen. split; reflexivity.
Qed.

(** A passage with a text source and a page value that counts as true is
    labelled with both. *)
Lemma cite_with_page (doc : Document.t) (s : string) (p : PyVal) :
  Document.metadata doc !! "source" = Some (PyStr s) →
  Document.metadata doc !! "page" = Some p →
  truthy p = true →
  cite doc = Ok {| Citation.source := s +:+ " (Page " +:+ py_str p +:+ ")";
                   Citation.page_content :=
                     Text.slice_to 200 (Document.page_content doc) +:+ "..." |}.
Proof. intros Hs Hp Ht. unfold cite. rewrite Hs, Hp. simpl. rewrite Ht. reflexivity. Qed.

(** A passage with a text source and no page is labelled with the source. *)
Lemma cite_without_page (doc : Document.t) (s : string) :
  Document.metadata doc !! "source" = Some (PyStr s) →
  Document.metadata doc !! "page" = None →
  cite doc = Ok {| Citation.source := s;
                   Citation.page_content :=
                     Text.slice_to 200 (Document.page_content doc) +:+ "..." |}.
Proof. intros Hs Hp. unfold cite. rewrite Hs, Hp. reflexivity. Qed.

(** C9, where the code departs from it.  A passage from the first page of
    a PDF carries the page number 0 in its metadata.  For every such
    passage with a text source, the citation of the chat endpoint has the
    expected snippet, but its source field is the source name alone and
    not the source name followed by " (Page 0)", which is the label the chat
    page gives the same passage. *)
Theorem citation_of_page_zero (doc : Document.t) (s : string) :
  Document.metadata doc !! "source" = Some (PyStr s) →
  Document.metadata doc !! "page" = Some (PyInt 0) →
  cite doc = Ok {| Citation.source := s;
                   Citation.page_content :=
                     Text.slice_to 200 (Document.page_content doc) +:+ "..." |}
  ∧ s ≠ s +:+ " (Page 0)"
  ∧ frontend_source doc = s +:+ " (Page 0)".
Proof.
  intros Hs Hp. split; [|split].
  - unfold cite. rewrite Hs, Hp. reflexivity.
  - intros H. apply append_self_nil in H. discriminate.
  - unfold frontend_source. rewrite Hs, Hp. reflexivity.
Qed.

Lemma citation_of_page_zero_witness :
  Document.metadata Scenario.first_page !! "source" = Some (PyStr "prospectus.pdf")
  ∧ Document.metadata Scenario.first_page !! "page" = Some (PyInt 0)
  ∧ cite Scenario.first_page
    = Ok {| Citation.source := "prospectus.pdf";
            Citation.page_content :=
              Text.slice_to 200 (Document.page_content Scenario.first_page) +:+ "..." |}
  ∧ "prospectus.pdf" ≠ "prospectus.pdf" +:+ " (Page 0)"
  ∧ frontend_source Scenario.first_page = "prospectus.pdf" +:+ " (Page 0)".
Proof.
  split; [reflexivity|]. split; [reflexivity|].
  apply (citation_of_page_zero Scenario.first_page "prospectus.pdf"); reflexivity.
Defined.

(** ** The chat endpoint *)

Lemma mapM_cons_Res {A B} (f : A → Res B) (x : A) (l : list A) :
  mapM f (x :: l) =
  match f x with
  | Ok y => match mapM f l with Ok k => Ok (y :: k) | Raised e => Raised e end
  | Raised e => Raised e
  end.
Proof. reflexivity. Qed.

Lemma mapM_Ok {A B} (f : A → Res B) (l : list A) :
  (∀ x, x ∈ l → ∃ y, f x = Ok y) →
  ∃ k, mapM f l = Ok k ∧ Forall2 (λ x y, f x = Ok y) l k.
Proof.
  induction l as [|x l IH]; intros Hall.
  - exists []. split; [reflexivity | constructor].
  - destruct (Hall x) as [y Hy]; [left|].
    destruct IH as (k & Hk & HF); [intros x' Hx'; apply Hall; now right|].
    exists (y :: k). split; [|now constructor].
    rewrite mapM_cons_Res, Hy, Hk. reflexivity.
Qed.

(** C10, as stated, fails in its second half: a result without an
    [answer] key whose passage has a number for its source gets no response
    with an empty answer; the citation is refused and the endpoint answers
    with status 500. *)
Lemma chat_no_answer_uncitable :
  let numbered :=
    {| Document.page_content := "Hostel rules";
       Document.metadata := <["source" := PyInt 7]> ∅ |} in
  let bare := λ (_ : string) (w : World),
    (Ok {| r_question := None; r_retrieved_docs := Some [numbered];
           r_answer := None |}, w) in
  (∃ detail,
     fst (chat_endpoint (Some bare) {| ChatRequest.message := "Hi" |} init_world)
       = HTTPException 500 detail)
  ∧ (∀ body,
       fst (chat_endpoint (Some bare) {| ChatRequest.message := "Hi" |} init_world)
         ≠ Http200 body).
Proof.
  cbv zeta. split.
  - eexists. vm_compute. reflexivity.
  - intros body H. vm_compute in H. discriminate H.
Qed.

(** C10, amended.  For every workflow result that the endpoint receives,
    the response has an empty list of citations whenever the result has no
    [retrieved_docs] key or an empty sequence under it, as on the refusal
    path; and whenever the result has no [answer] key and every passage of
    the result can be cited, the endpoint answers 200 with the empty text
    as answer. *)
Theorem chat_defaults
    (rag_run : string → M ResultDict) (request : ChatRequest.t)
    (w w' : World) (result : ResultDict) :
  rag_run (ChatRequest.message request) w = (Ok result, w') →
  (r_retrieved_docs result = None ∨ r_retrieved_docs result = Some [] →
     chat_endpoint (Some rag_run) request w =
       (Http200 {| ChatResponse.answer := default "" (r_answer result);
                   ChatResponse.citations := [] |}, w'))
  ∧ (r_answer result = None →
     (∀ d, d ∈ default [] (r_retrieved_docs result) → ∃ c, cite d = Ok c) →
     ∃ cs, chat_endpoint (Some rag_run) request w =
             (Http200 {| ChatResponse.answer := ""; ChatResponse.citations := cs |}, w')).
Proof.
  intros Hrun. unfold chat_endpoint. rewrite Hrun. split.
  - intros [-> | ->]; reflexivity.
  - intros -> Hall. destruct (mapM_Ok cite _ Hall) as (cs & Hcs & _).
    exists cs.
    destruct (r_retrieved_docs result) as [[|d ds]|]; cbn [default from_option id] in *.
    + injection Hcs as <-. reflexivity.
    + rewrite Hcs. reflexivity.
    + injection Hcs as <-. reflexivity.
Qed.

Lemma chat_defaults_witness :
  let bare := λ (_ : string) (w : World),
    (Ok {| r_question := None; r_retrieved_docs := None; r_answer := None |}, w) in
  bare "Hi" init_world =
    (Ok {| r_question := None; r_retrieved_docs := None; r_answer := None |}, init_world)
  ∧ chat_endpoint (Some bare) {| ChatRequest.message := "Hi" |} init_world =
      (Http200 {| ChatResponse.answer := ""; ChatResponse.citations := [] |}, init_world)
  ∧ ∃ cs, chat_endpoint (Some bare) {| ChatRequest.message := "Hi" |} init_world =
            (Http200 {| ChatResponse.answer := ""; ChatResponse.citations := cs |},
             init_world).
Proof.
  intros bare. split; [reflexivity|].
  destruct (chat_defaults bare {| ChatRequest.message := "Hi" |}
              init_world init_world
              {| r_question := None; r_retrieved_docs := None; r_answer := None |}
              eq_refl) as [Hdocs Hanswer].
  split; [exact (Hdocs (or_introl eq_refl))|].
  apply (Hanswer eq_refl). intros d Hd. cbn in Hd. now apply elem_of_nil in Hd.
Defined.

(** ** The scenarios, run *)

Example normalize_reply :
  normalized "  no. " = "NO."
  ∧ Text.contains "NO" (normalized "  no. ") = true
  ∧ Text.contains "NO" (normalized "I do not know") = true
  ∧ Text.contains "NO" (normalized "Yes") = false.
Proof. repeat split; reflexivity. Qed.

Example truth_values :
  truthy (PyInt 0) = false ∧ truthy (PyInt 12) = true
  ∧ truthy (PyStr "") = false ∧ truthy (PyStr "3") = true ∧ truthy PyNone = false.
Proof. repeat split; reflexivity. Qed.

(** Scenario A: a greeting is refused. *)
Example scenario_refused :
  fst (run Scenario.refusing "Hi" init_world)
  = Ok {| r_question := Some "Hi"; r_retrieved_docs := Some [];
          r_answer := Some "I only answer department information." |}.
Proof. vm_compute. reflexivity. Qed.

(** Scenario C at the endpoint: an answer and one citation per passage. *)
Example scenario_answered :
  fst (chat Scenario.answering {| ChatRequest.message := "Who is the HOD?" |} init_world)
  = Http200
      {| ChatResponse.answer := "The HOD is Dr. X.";
         ChatResponse.citations :=
           [ {| Citation.source := "prospectus.pdf (Page 12)";
                Citation.page_content := "The fee structure is given below...." |};
             {| Citation.source := "https://uet.edu.pk";
                Citation.page_content := "Admissions open in August...." |} ] |}.
Proof. vm_compute. reflexivity. Qed.

(** An agent without a final message: the fallback, and the passages kept. *)
Example scenario_silent :
  fst (run Scenario.silent "Fee structure?" init_world)
  = Ok {| r_question := Some "Fee structure?";
          r_retrieved_docs := Some [Scenario.page_12];
          r_answer := Some "Could not generate answer." |}.
Proof. vm_compute. reflexivity. Qed.

(** The stages of an answered run, and its calls to the store. *)
Example scenario_stages :
  stages (trace (snd (run Scenario.answering "Who is the HOD?" init_world)))
    = ["guardrail"; "retriever"; "responder"]
  ∧ retrieve_calls (trace (snd (run Scenario.answering "Who is the HOD?" init_world)))
    = ["Who is the HOD?"]
  ∧ retrieve_calls (trace (snd (run Scenario.refusing "Hi" init_world))) = [].
Proof. repeat split; vm_compute; reflexivity. Qed.

(** Before start-up has finished the endpoint answers 503; an exception
    of the store becomes a 500 with its text. *)
Example scenario_errors :
  fst (chat_endpoint None {| ChatRequest.message := "Hi" |} init_world)
    = HTTPException 503 "System is still initializing"
  ∧ fst (chat {| llm_invoke := Scenario.llm_replies "YES";
                 retriever_invoke := λ _ _, inl (mkExn "ConnectionError" "store is down");
                 agent_invoke := Scenario.agent_returns (Scenario.says "x") |}
              {| ChatRequest.message := "Fee structure?" |} init_world)
    = HTTPException 500 "store is down".
Proof. split; vm_compute; reflexivity. Qed.


(** * Further properties of the code *)

(** ** Trimming and the guardrail's decision *)

Lemma space_not_N_O (c : ascii) :
  Text.isspace c = true →
  Text.upper_char c ≠ "N"%char ∧ Text.upper_char c ≠ "O"%char.
Proof.
  destruct c as [[] [] [] [] [] [] [] []]; vm_compute; intros H;
    try discriminate H; split; discriminate.
Qed.

Lemma upper_app (a b : string) :
  Text.upper (a +:+ b) = Text.upper a +:+ Text.upper b.
Proof.
  induction a as [|c a IH]; [reflexivity|].
  rewrite append_cons. simpl. rewrite IH, append_cons. reflexivity.
Qed.

Lemma lstrip_decomp (s : string) :
  ∃ t, all_space t = true ∧ s = t +:+ Text.lstrip s.
Proof.
  induction s as [|c s (t & Ht & Hs)]; [now exists ""|].
  simpl. destruct (Text.isspace c) eqn:Hc.
  - exists (String c t). split; [simpl; now rewrite Hc|].
    rewrite append_cons. now f_equal.
  - now exists "".
Qed.

Lemma rstrip_decomp (s : string) :
  ∃ t, all_space t = true ∧ s = Text.rstrip s +:+ t.
Proof.
  induction s as [|c s (t & Ht & Hs)]; [now exists ""|].
  simpl. destruct (Text.rstrip s) as [|a r] eqn:Hr.
  - rewrite append_nil_l in Hs. subst t.
    destruct (Text.isspace c) eqn:Hc.
    + exists (String c s). split; [simpl; now rewrite Hc | reflexivity].
    + exists s. split; [exact Ht | reflexivity].
  - exists t. split; [exact Ht|]. rewrite append_cons. now f_equal.
Qed.

Lemma prefix_cons (a b : ascii) (sub s : string) :
  String.prefix (String a sub) (String b s) =
  if ascii_dec a b then String.prefix sub s else false.
Proof. reflexivity. Qed.

Lemma prefix_nil (s : string) : String.prefix "" s = true.
Proof. now destruct s. Qed.

Lemma prefix_NO_cons (a : ascii) (x : string) :
  a ≠ "N"%char → String.prefix "NO" (String a x) = false.
Proof.
  intros Ha. rewrite prefix_cons.
  destruct (ascii_dec "N" a); [congruence | reflexivity].
Qed.

Lemma contains_skip_left (t x : string) :
  all_space t = true →
  Text.contains "NO" (Text.upper t +:+ x) = Text.contains "NO" x.
Proof.
  induction t as [|c t IH]; [reflexivity|]. cbn [Text.upper all_space].
  intros [Hc Ht]%andb_true_iff. rewrite append_cons, contains_eq.
  rewrite prefix_NO_cons by (now apply space_not_N_O). now apply IH.
Qed.

Lemma prefix_O_space (t : string) :
  all_space t = true → String.prefix "O" (Text.upper t) = false.
Proof.
  destruct t as [|c t]; [reflexivity|]. cbn [Text.upper all_space].
  intros [Hc _]%andb_true_iff. apply space_not_N_O in Hc as [_ Hc].
  rewrite prefix_cons.
  destruct (ascii_dec "O" (Text.upper_char c)); [congruence | reflexivity].
Qed.

Lemma contains_skip_right (t x : string) :
  all_space t = true →
  Text.contains "NO" (x +:+ Text.upper t) = Text.contains "NO" x.
Proof.
  intros Ht. induction x as [|a x IH].
  - rewrite append_nil_l.
    rewrite <- (append_nil_r (Text.upper t)). now apply contains_skip_left.
  - rewrite append_cons, !(contains_eq _ (String _ _)), IH. f_equal.
    rewrite !prefix_cons. destruct (ascii_dec "N" a); [|reflexivity].
    destruct x as [|b x].
    + rewrite append_nil_l. now apply prefix_O_space.
    + rewrite append_cons, !prefix_cons.
      destruct (ascii_dec "O" b); [|reflexivity].
      now rewrite !prefix_nil.
Qed.

Lemma contains_NO_normalized (reply : string) :
  Text.contains "NO" (normalized reply) = Text.contains "NO" (Text.upper reply).
Proof.
  unfold normalized, Text.strip.
  destruct (lstrip_decomp reply) as (t1 & Ht1 & H1).
  destruct (rstrip_decomp (Text.lstrip reply)) as (t2 & Ht2 & H2).
  rewrite H1 at 2. rewrite H2 at 2.
  rewrite !upper_app, contains_skip_left, contains_skip_right by assumption.
  reflexivity.
Qed.

(** X1. Whitespace around the reply never changes the guardrail's
    decision: "NO" occurs in the trimmed, uppercased reply exactly when it
    occurs in the uppercased reply. *)
Theorem decision_ignores_trimming (reply : string) :
  is_substring "NO" (normalized reply) ↔ is_substring "NO" (Text.upper reply).
Proof. now rewrite <- !contains_spec, contains_NO_normalized. Qed.

(** X2. The match is permissive: a reply in which the two letters n, o
    follow one another in any mix of cases, as in "I do not know", is
    classified as out-of-domain. *)
Theorem decision_matches_any_case (reply x : string) :
  Text.upper x = "NO" →
  is_substring x reply →
  Text.contains "NO" (normalized reply) = true.
Proof.
  intros Hx (pre & post & ->).
  rewrite contains_NO_normalized, !upper_app, Hx.
  apply contains_spec. now exists (Text.upper pre), (Text.upper post).
Qed.

Lemma decision_matches_any_case_witness :
  Text.upper "no" = "NO"
  ∧ is_substring "no" "I do not know"
  ∧ Text.contains "NO" (normalized "I do not know") = true.
Proof.
  assert (Hsub : is_substring "no" "I do not know") by now exists "I do ", "t know".
  split; [reflexivity|]. split; [exact Hsub|].
  apply (decision_matches_any_case "I do not know" "no"); [reflexivity | exact Hsub].
Defined.

(** ** The guardrail and the branch of the graph *)

(** X3. The two stages agree on their signal: the state the guardrail
    returns is routed to "end" by [check_guardrail] exactly when "NO"
    occurs in the normalized reply, and to "continue" otherwise. *)
Theorem guardrail_routes
    (self : Collaborators) (state : RAGState.t) (w : World) (r : string) :
  llm_invoke self (trace w ++ [guardrail_banner (RAGState.question state)])
             (guardrail_messages (RAGState.question state)) = inr r →
  ∃ state' w',
    guardrail self state w = (Ok state', w')
    ∧ (check_guardrail state' = "end" ↔ is_substring "NO" (normalized r))
    ∧ (check_guardrail state' = "continue" ↔ ¬ is_substring "NO" (normalized r)).
Proof.
  intros Hreply. pose proof (guardrail_eq self state w) as Heq.
  cbv zeta in Heq. rewrite Hreply in Heq. eexists _, _. split; [exact Heq|].
  rewrite check_guardrail_eq.
  destruct (Text.contains "NO" (normalized r)) eqn:Hc.
  - apply contains_spec in Hc.
    change (RAGState.answer (RAGState.new ?q None (Some refusal))) with refusal.
    rewrite marker_in_refusal. split; split; try tauto; discriminate.
  - apply contains_false in Hc.
    change (RAGState.answer (RAGState.new ?q None (Some ""))) with "".
    rewrite marker_not_in_empty. split; split; try tauto; discriminate.
Qed.

Lemma guardrail_routes_witness :
  llm_invoke Scenario.answering
    (trace init_world ++ [guardrail_banner "Fee structure?"])
    (guardrail_messages "Fee structure?") = inr "YES"
  ∧ ∃ state' w',
      guardrail Scenario.answering (RAGState.new "Fee structure?" None None) init_world
        = (Ok state', w')
      ∧ (check_guardrail state' = "end" ↔ is_substring "NO" (normalized "YES"))
      ∧ (check_guardrail state' = "continue" ↔ ¬ is_substring "NO" (normalized "YES")).
Proof.
  split; [reflexivity|].
  apply (guardrail_routes Scenario.answering (RAGState.new "Fee structure?" None None)
           init_world "YES").
  reflexivity.
Defined.

(** ** What a run calls, path by path *)

Lemma agent_calls_app (tr1 tr2 : list Event) :
  agent_calls (tr1 ++ tr2) = agent_calls tr1 ++ agent_calls tr2.
Proof. apply omap_app. Qed.

Ltac flatten_trace w :=
  unfold agent_call_trace, store_call_trace, guardrail_call_trace, agent_setup;
  destruct (agent_built w); rewrite <- ?app_assoc.

(** X4. A failure of the Language Model ends the run at the guardrail: the
    exception comes out of [run] as it is, the guardrail is the only stage
    started, and neither the Document Store nor the agent is called. *)
Theorem llm_failure_stops_run
    (self : Collaborators) (question : string) (w : World) (e : Exn) :
  well_formed w →
  llm_invoke self (guardrail_call_trace w question) (guardrail_messages question) = inl e →
  ∃ w',
    run self question w = (Raised e, w')
    ∧ stages (trace w') = stages (trace w) ++ ["guardrail"]
    ∧ retrieve_calls (trace w') = retrieve_calls (trace w)
    ∧ agent_calls (trace w') = agent_calls (trace w)
    ∧ agent_built w' = agent_built w.
Proof.
  intros Hw Hllm. pose proof (run_paths self question w Hw) as Hp.
  cbv zeta in Hp. rewrite Hllm in Hp. eexists. split; [exact Hp|].
  cbn [trace agent_built]. unfold guardrail_call_trace. rewrite <- app_assoc.
  rewrite stages_app, retrieve_calls_app, agent_calls_app.
  repeat split; try reflexivity; apply app_nil_r.
Qed.

Lemma llm_failure_stops_run_witness :
  let down : Collaborators :=
    {| llm_invoke := λ _ _, inl (mkExn "TimeoutError" "model timed out");
       retriever_invoke := Scenario.store_returns [Scenario.page_12];
       agent_invoke := Scenario.agent_returns (Scenario.says "x") |} in
  well_formed init_world
  ∧ ∃ w',
      run down "Hi" init_world = (Raised (mkExn "TimeoutError" "model timed out"), w')
      ∧ stages (trace w') = stages (trace init_world) ++ ["guardrail"]
      ∧ retrieve_calls (trace w') = retrieve_calls (trace init_world)
      ∧ agent_calls (trace w') = agent_calls (trace init_world)
      ∧ agent_built w' = agent_built init_world.
Proof.
  intros down. split; [left; reflexivity|].
  apply (llm_failure_stops_run down "Hi" init_world); [left; reflexivity | reflexivity].
Defined.

(** X5. The in-domain path, end to end.  When the guardrail's reply does
    not contain "NO", the store returns [docs] and the agent returns
    [result], [run] returns the question, exactly [docs] and the agent's
    answer (or the fallback), the three stages having run in order.  By the
    time the agent is invoked the run has called the Language Model once,
    for the guardrail, and the store once, with the question itself; the
    agent is then invoked once, with the question as its only message. *)
Theorem answered_path
    (self : Collaborators) (question : string) (w : World)
    (r : string) (docs : list Document.t) (result : AgentResult) :
  well_formed w →
  llm_invoke self (guardrail_call_trace w question) (guardrail_messages question) = inr r →
  ¬ is_substring "NO" (normalized r) →
  retriever_invoke self (store_call_trace w question r) question = inr docs →
  agent_invoke self (agent_call_trace w question r) [HumanMessage question] = inr result →
  ∃ w',
    run self question w =
      (Ok {| r_question := Some question; r_retrieved_docs := Some docs;
             r_answer := Some (or_else (final_content result)
                                       "Could not generate answer.") |}, w')
    ∧ stages (trace w') = stages (trace w) ++ ["guardrail"; "retriever"; "responder"]
    ∧ agent_calls (trace w') = agent_calls (trace w) ++ [[HumanMessage question]]
    ∧ llm_calls (agent_call_trace w question r)
      = llm_calls (trace w) ++ [guardrail_messages question]
    ∧ retrieve_calls (agent_call_trace w question r)
      = retrieve_calls (trace w) ++ [question]
    ∧ agent_calls (agent_call_trace w question r) = agent_calls (trace w).
Proof.
  intros Hw Hllm Hno Hstore Hagent. apply contains_false in Hno.
  pose proof (run_paths self question w Hw) as Hp. cbv zeta in Hp.
  rewrite Hllm, Hno, Hstore, Hagent in Hp. eexists. split; [exact Hp|].
  cbn [trace]. clear.
  flatten_trace w;
    rewrite ?llm_calls_app, ?retrieve_calls_app, ?agent_calls_app, ?stages_app;
    repeat split; try reflexivity;
    (etransitivity; [|apply app_nil_r]); reflexivity.
Qed.

Lemma answered_path_witness :
  ∃ w',
    run Scenario.answering "Who is the HOD?" init_world =
      (Ok {| r_question := Some "Who is the HOD?";
             r_retrieved_docs := Some [Scenario.page_12; Scenario.web_page];
             r_answer := Some (or_else (final_content (Scenario.says "The HOD is Dr. X."))
                                       "Could not generate answer.") |}, w')
    ∧ stages (trace w') = stages (trace init_world) ++ ["guardrail"; "retriever"; "responder"]
    ∧ agent_calls (trace w') = agent_calls (trace init_world) ++ [[HumanMessage "Who is the HOD?"]]
    ∧ llm_calls (agent_call_trace init_world "Who is the HOD?" "YES")
      = llm_calls (trace init_world) ++ [guardrail_messages "Who is the HOD?"]
    ∧ retrieve_calls (agent_call_trace init_world "Who is the HOD?" "YES")
      = retrieve_calls (trace init_world) ++ ["Who is the HOD?"]
    ∧ agent_calls (agent_call_trace init_world "Who is the HOD?" "YES")
      = agent_calls (trace init_world).
Proof.
  apply (answered_path Scenario.answering "Who is the HOD?" init_world "YES"
           [Scenario.page_12; Scenario.web_page] (Scenario.says "The HOD is Dr. X."));
    [left; reflexivity | reflexivity | | reflexivity | reflexivity].
  apply contains_false. reflexivity.
Defined.

(** ** The objects' fields across calls *)

Lemma agent_builds_app (tr1 tr2 : list Event) :
  agent_builds (tr1 ++ tr2) = agent_builds tr1 + agent_builds tr2.
Proof. unfold agent_builds. now rewrite omap_app, length_app. Qed.

Lemma generate_answer_world (self : Collaborators) (state : RAGState.t) (w : World) :
  let w' := snd (generate_answer self state w) in
  agent_built w' = true
  ∧ graph w' = graph w
  ∧ trace w' = trace w ++ agent_setup w ++ [EvAgent [HumanMessage (RAGState.question state)]].
Proof.
  pose proof (generate_answer_eq self state w) as Heq. cbv zeta in Heq.
  cbv zeta. rewrite Heq.
  destruct (agent_invoke self _ _); unfold agent_setup;
    destruct (agent_built w) eqn:Hb; cbn [snd trace agent_built graph recorded];
    rewrite ?Hb, <- ?app_assoc; repeat split; reflexivity.
Qed.

(** X6. An agent that exists is reused.  When the agent has been built
    before, [generate_answer] builds no other: it invokes the one there is,
    once and with the question as its only message, and the agent still
    exists afterwards, whether the invocation returned or raised. *)
Theorem agent_reused (self : Collaborators) (state : RAGState.t) (w : World) :
  agent_built w = true →
  let w' := snd (generate_answer self state w) in
  agent_built w' = true
  ∧ agent_builds (trace w') = agent_builds (trace w)
  ∧ agent_calls (trace w')
    = agent_calls (trace w) ++ [[HumanMessage (RAGState.question state)]].
Proof.
  intros Hb w'. destruct (generate_answer_world self state w) as (Hb' & _ & Ht).
  fold w' in Hb', Ht. split; [exact Hb'|].
  rewrite Ht. unfold agent_setup. rewrite Hb.
  rewrite agent_builds_app, agent_calls_app. split; [apply Nat.add_0_r | reflexivity].
Qed.

Lemma agent_reused_witness :
  let ready := {| trace := []; agent_built := true; graph := None |} in
  let w' := snd (generate_answer Scenario.silent
                   (RAGState.new "Fee structure?" (Some [Scenario.page_12]) None) ready) in
  agent_built ready = true
  ∧ agent_built w' = true
  ∧ agent_builds (trace w') = agent_builds (trace ready)
  ∧ agent_calls (trace w') = agent_calls (trace ready) ++ [[HumanMessage "Fee structure?"]].
Proof.
  intros ready w'. split; [reflexivity|].
  apply (agent_reused Scenario.silent
           (RAGState.new "Fee structure?" (Some [Scenario.page_12]) None) ready).
  reflexivity.
Defined.

(** X7. [run] leaves a built graph behind and never rewrites the past:
    after a run the graph field holds the workflow, so the next run finds
    it, the trace of the world before the run is a prefix of the trace
    after it, and an agent that existed still exists. *)
Theorem run_keeps_world (self : Collaborators) (question : string) (w : World) :
  well_formed w →
  let w' := snd (run self question w) in
  graph w' = Some workflow
  ∧ well_formed w'
  ∧ trace w `prefix_of` trace w'
  ∧ (agent_built w = true → agent_built w' = true).
Proof.
  intros Hw. pose proof (run_paths self question w Hw) as Hp. cbv zeta in Hp.
  cbv zeta.
  destruct (llm_invoke self _ _) as [e | r];
    [|destruct (Text.contains "NO" (normalized r));
      [|destruct (retriever_invoke self _ _) as [e | docs];
        [|destruct (agent_invoke self _ _) as [e | result]]]];
    rewrite Hp; cbn [snd graph trace agent_built];
    (split; [reflexivity|]); (split; [right; reflexivity|]);
    (split; [|tauto]);
    unfold agent_call_trace, store_call_trace, guardrail_call_trace;
    rewrite <- ?app_assoc; apply prefix_app_r; reflexivity.
Qed.

Lemma run_keeps_world_witness :
  well_formed init_world
  ∧ graph (snd (run Scenario.refusing "Hi" init_world)) = Some workflow
  ∧ well_formed (snd (run Scenario.refusing "Hi" init_world))
  ∧ trace init_world `prefix_of` trace (snd (run Scenario.refusing "Hi" init_world))
  ∧ (agent_built init_world = true →
     agent_built (snd (run Scenario.refusing "Hi" init_world)) = true).
Proof.
  split; [left; reflexivity|].
  apply (run_keeps_world Scenario.refusing "Hi" init_world). left; reflexivity.
Defined.

Lemma or_else_nonempty (a : option string) (d : string) : d ≠ "" → or_else a d ≠ "".
Proof.
  intros Hd. destruct a as [c|]; simpl; [|exact Hd].
  destruct (String.eqb_spec c ""); [exact Hd | assumption].
Qed.

(** X8. What [run] hands back.  Every result of [run] has its three keys,
    its question is the question that was asked, and its answer is never
    the empty text: it is the refusal sentinel, the agent's text, or the
    fallback. *)
Theorem run_result_shape
    (self : Collaborators) (question : string) (w w' : World) (res : ResultDict) :
  well_formed w →
  run self question w = (Ok res, w') →
  r_question res = Some question
  ∧ (∃ docs, r_retrieved_docs res = Some docs)
  ∧ (∃ a, r_answer res = Some a ∧ a ≠ "").
Proof.
  intros Hw Hrun. pose proof (run_paths self question w Hw) as Hp. cbv zeta in Hp.
  destruct (llm_invoke self _ _) as [e | r]; [congruence|].
  destruct (Text.contains "NO" (normalized r)).
  { rewrite Hp in Hrun. injection Hrun as <- _. cbn.
    split; [reflexivity|]. split; [now exists []|].
    exists refusal. split; [reflexivity | discriminate]. }
  destruct (retriever_invoke self _ _) as [e | docs]; [congruence|].
  destruct (agent_invoke self _ _) as [e | result]; [congruence|].
  rewrite Hp in Hrun. injection Hrun as <- _. cbn.
  split; [reflexivity|]. split; [now exists docs|].
  eexists. split; [reflexivity|]. apply or_else_nonempty. discriminate.
Qed.

Lemma run_result_shape_witness :
  well_formed init_world
  ∧ r_question {| r_question := Some "Fee structure?";
                  r_retrieved_docs := Some [Scenario.page_12];
                  r_answer := Some "Could not generate answer." |} = Some "Fee structure?"
  ∧ (∃ docs, r_retrieved_docs {| r_question := Some "Fee structure?";
                                 r_retrieved_docs := Some [Scenario.page_12];
                                 r_answer := Some "Could not generate answer." |} = Some docs)
  ∧ (∃ a, r_answer {| r_question := Some "Fee structure?";
                      r_retrieved_docs := Some [Scenario.page_12];
                      r_answer := Some "Could not generate answer." |} = Some a ∧ a ≠ "").
Proof.
  split; [left; reflexivity|].
  apply (run_result_shape Scenario.silent "Fee structure?" init_world
           (snd (run Scenario.silent "Fee structure?" init_world))).
  - left; reflexivity.
  - apply injective_projections; [vm_compute; reflexivity | reflexivity].
Defined.

(** X9. The graph that [build] declares is closed: its entry point is a
    declared node, and every edge and every entry of the routing table
    leaves from a declared node and leads to a declared node or to END. *)
Theorem workflow_closed :
  (∃ n fn, entry_point workflow = Some n ∧ nodes workflow !! n = Some fn)
  ∧ ∀ a b, graph_edge workflow a b →
      is_Some (nodes workflow !! a)
      ∧ (b = END ∨ ∃ n, b = Node n ∧ is_Some (nodes workflow !! n)).
Proof.
  destruct workflow_nodes as (Hg & Hr & Ha).
  split; [now exists "guardrail", Fn_guardrail|].
  intros a b. unfold graph_edge. rewrite workflow_edges, workflow_branches.
  intros [H | (path & path_map & key & H1 & H2)].
  - apply lookup_insert_Some in H as [[<- <-] | [_ H]].
    { split; [eexists; exact Ha | now left]. }
    apply lookup_insert_Some in H as [[<- <-] | [_ H]].
    + split; [eexists; exact Hr|]. right. exists "responder".
      split; [reflexivity | eexists; exact Ha].
    + rewrite lookup_empty in H. discriminate.
  - apply lookup_insert_Some in H1 as [[<- H1] | [_ H1]].
    + injection H1 as _ <-. split; [eexists; exact Hg|].
      apply lookup_insert_Some in H2 as [[_ <-] | [_ H2]]; [now left|].
      apply lookup_insert_Some in H2 as [[_ <-] | [_ H2]].
      * right. exists "retriever". split; [reflexivity | eexists; exact Hr].
      * rewrite lookup_empty in H2. discriminate.
    + rewrite lookup_empty in H1. discriminate.
Qed.

(** ** The retriever tool *)

Lemma retriever_tool_fn_eq (self : Collaborators) (query : string) (w : World) :
  retriever_tool_fn self query w =
  match retriever_invoke self (trace w) query with
  | inl e => (Raised e, recorded [EvRetrieve query] w)
  | inr [] => (Ok "No documents found.", recorded [EvRetrieve query] w)
  | inr docs =>
      (Ok (join (Text.nl +:+ Text.nl) (imap (λ i d, tool_block (S i) d) (take 8 docs))),
       recorded [EvRetrieve query] w)
  end.
Proof.
  unfold retriever_tool_fn. rewrite bind_eq, call_eq.
  destruct (retriever_invoke self (trace w) query) as [e | [|d docs]]; reflexivity.
Qed.

Lemma join_head (sep b : string) (rest : list string) :
  ∃ tail, join sep (b :: rest) = b +:+ tail.
Proof.
  destruct rest as [|b' rest]; simpl.
  - exists "". now rewrite append_nil_r.
  - now eexists.
Qed.

Lemma tool_block_bracket (i : nat) (d : Document.t) :
  ∃ tail, tool_block i d = String "[" tail.
Proof. unfold tool_block. eexists. rewrite append_cons, append_nil_l. reflexivity. Qed.

(** X10. The tool answers "No documents found." exactly when the store
    returns no passage; in every case it has called the store once, with
    the query it was given. *)
Theorem tool_reports_empty
    (self : Collaborators) (query : string) (w : World) (docs : list Document.t) :
  retriever_invoke self (trace w) query = inr docs →
  ∃ text w',
    retriever_tool_fn self query w = (Ok text, w')
    ∧ (text = "No documents found." ↔ docs = [])
    ∧ retrieve_calls (trace w') = retrieve_calls (trace w) ++ [query].
Proof.
  intros Hdocs. rewrite retriever_tool_fn_eq, Hdocs.
  destruct docs as [|d docs].
  - eexists _, _. split; [reflexivity|]. split; [tauto|].
    cbn [trace recorded]. now rewrite retrieve_calls_app.
  - eexists _, _. split; [reflexivity|]. split.
    + split; [|discriminate]. cbn [take imap].
      destruct (join_head (Text.nl +:+ Text.nl) (tool_block 1 d)
                  (imap ((λ i d, tool_block (S i) d) ∘ S) (take 7 docs))) as [tail ->].
      destruct (tool_block_bracket 1 d) as [tail' ->].
      rewrite append_cons. discriminate.
    + cbn [trace recorded]. now rewrite retrieve_calls_app.
Qed.

Lemma tool_reports_empty_witness :
  let empty : Collaborators :=
    {| llm_invoke := Scenario.llm_replies "YES";
       retriever_invoke := Scenario.store_returns [];
       agent_invoke := Scenario.agent_returns (Scenario.says "x") |} in
  retriever_invoke empty (trace init_world) "hostel" = inr []
  ∧ ∃ text w',
      retriever_tool_fn empty "hostel" init_world = (Ok text, w')
      ∧ (text = "No documents found." ↔ @nil Document.t = [])
      ∧ retrieve_calls (trace w') = retrieve_calls (trace init_world) ++ ["hostel"].
Proof.
  intros empty. split; [reflexivity|].
  apply (tool_reports_empty empty "hostel" init_world []). reflexivity.
Defined.

(** X11. The tool shows at most eight passages.  For a non-empty result
    of the store its text is the blocks of the first eight passages, joined
    by a blank line: there are as many blocks as passages, but never more
    than eight, and block number i+1 is the block of passage i. *)
Theorem tool_shows_first_eight
    (self : Collaborators) (query : string) (w : World) (docs : list Document.t) :
  retriever_invoke self (trace w) query = inr docs →
  docs ≠ [] →
  ∃ blocks w',
    retriever_tool_fn self query w = (Ok (join (Text.nl +:+ Text.nl) blocks), w')
    ∧ length blocks = Nat.min 8 (length docs)
    ∧ ∀ i d, i < 8 → docs !! i = Some d → blocks !! i = Some (tool_block (S i) d).
Proof.
  intros Hdocs Hne. rewrite retriever_tool_fn_eq, Hdocs.
  destruct docs as [|d0 docs]; [contradiction|].
  eexists _, _. split; [reflexivity|]. split.
  - now rewrite length_imap, length_take.
  - intros i d Hi Hd. rewrite list_lookup_imap, lookup_take_lt, Hd by exact Hi.
    reflexivity.
Qed.

Lemma tool_shows_first_eight_witness :
  let many : Collaborators :=
    {| llm_invoke := Scenario.llm_replies "YES";
       retriever_invoke := Scenario.store_returns (replicate 10 Scenario.web_page);
       agent_invoke := Scenario.agent_returns (Scenario.says "x") |} in
  retriever_invoke many (trace init_world) "fee" = inr (replicate 10 Scenario.web_page)
  ∧ replicate 10 Scenario.web_page ≠ []
  ∧ ∃ blocks w',
      retriever_tool_fn many "fee" init_world = (Ok (join (Text.nl +:+ Text.nl) blocks), w')
      ∧ length blocks = Nat.min 8 (length (replicate 10 Scenario.web_page))
      ∧ ∀ i d, i < 8 → replicate 10 Scenario.web_page !! i = Some d →
               blocks !! i = Some (tool_block (S i) d).
Proof.
  intros many. split; [reflexivity|]. split; [discriminate|].
  apply (tool_shows_first_eight many "fee" init_world (replicate 10 Scenario.web_page));
    [reflexivity | discriminate].
Defined.

(** The heading of a block.  A passage is headed by its title when
    the metadata has one that counts as true; failing that by its source,
    under the same condition; and failing both, as when the keys are
    missing or hold empty texts, by "doc_" and its number. *)
Lemma tool_block_heading (i : nat) (d : Document.t) :
  let title := default PyNone (Document.metadata d !! "title") in
  let source := default PyNone (Document.metadata d !! "source") in
  let block heading :=
    "[" +:+ py_str (PyInt (Z.of_nat i)) +:+ "] " +:+ heading
    +:+ Text.nl +:+ Document.page_content d in
  (truthy title = true → tool_block i d = block (py_str title))
  ∧ (truthy title = false → truthy source = true →
       tool_block i d = block (py_str source))
  ∧ (truthy title = false → truthy source = false →
       tool_block i d = block ("doc_" +:+ py_str (PyInt (Z.of_nat i)))).
Proof.
  intros title source block. unfold tool_block, py_or. fold title source.
  split; [|split].
  - intros ->. reflexivity.
  - intros -> ->. reflexivity.
  - intros -> ->. reflexivity.
Qed.


(** ** The endpoint on top of the workflow *)

(** X12. An out-of-domain question at the endpoint: when the guardrail's
    normalized reply contains "NO", the endpoint answers 200 with the
    refusal sentinel and no citation, and the Document Store has not been
    queried. *)
Theorem chat_refuses
    (self : Collaborators) (request : ChatRequest.t) (w : World) (r : string) :
  well_formed w →
  llm_invoke self (guardrail_call_trace w (ChatRequest.message request))
             (guardrail_messages (ChatRequest.message request)) = inr r →
  is_substring "NO" (normalized r) →
  ∃ w',
    chat self request w =
      (Http200 {| ChatResponse.answer := "I only answer department information.";
                  ChatResponse.citations := [] |}, w')
    ∧ retrieve_calls (trace w') = retrieve_calls (trace w)
    ∧ agent_calls (trace w') = agent_calls (trace w).
Proof.
  intros Hw Hllm Hno. apply contains_spec in Hno.
  pose proof (run_paths self (ChatRequest.message request) w Hw) as Hp.
  cbv zeta in Hp. rewrite Hllm, Hno in Hp.
  unfold chat, chat_endpoint. rewrite Hp. eexists. split; [reflexivity|].
  cbn [trace]. unfold guardrail_call_trace. rewrite <- app_assoc.
  rewrite retrieve_calls_app, agent_calls_app. split; apply app_nil_r.
Qed.

Lemma chat_refuses_witness :
  well_formed init_world
  ∧ is_substring "NO" (normalized " No. ")
  ∧ ∃ w',
      chat Scenario.refusing {| ChatRequest.message := "Hi" |} init_world =
        (Http200 {| ChatResponse.answer := "I only answer department information.";
                    ChatResponse.citations := [] |}, w')
      ∧ retrieve_calls (trace w') = retrieve_calls (trace init_world)
      ∧ agent_calls (trace w') = agent_calls (trace init_world).
Proof.
  assert (Hno : is_substring "NO" (normalized " No. ")) by now exists "", ".".
  split; [left; reflexivity|]. split; [exact Hno|].
  apply (chat_refuses Scenario.refusing {| ChatRequest.message := "Hi" |} init_world " No. ");
    [left; reflexivity | reflexivity | exact Hno].
Defined.

(** X13. A failure of the Document Store at the endpoint: when the
    guardrail lets the question through and the store raises, the endpoint
    answers 500 with the text of the exception, and the agent has not been
    called. *)
Theorem chat_store_failure
    (self : Collaborators) (request : ChatRequest.t) (w : World) (r : string) (e : Exn) :
  well_formed w →
  llm_invoke self (guardrail_call_trace w (ChatRequest.message request))
             (guardrail_messages (ChatRequest.message request)) = inr r →
  ¬ is_substring "NO" (normalized r) →
  retriever_invoke self (store_call_trace w (ChatRequest.message request) r)
                   (ChatRequest.message request) = inl e →
  ∃ w',
    chat self request w = (HTTPException 500 (exn_msg e), w')
    ∧ retrieve_calls (trace w') =
        retrieve_calls (trace w) ++ [ChatRequest.message request]
    ∧ agent_calls (trace w') = agent_calls (trace w)
    ∧ agent_builds (trace w') = agent_builds (trace w).
Proof.
  intros Hw Hllm Hno Hstore. apply contains_false in Hno.
  pose proof (run_paths self (ChatRequest.message request) w Hw) as Hp.
  cbv zeta in Hp. rewrite Hllm, Hno, Hstore in Hp.
  unfold chat, chat_endpoint. rewrite Hp. eexists. split; [reflexivity|].
  cbn [trace]. unfold store_call_trace, guardrail_call_trace. rewrite <- !app_assoc.
  rewrite retrieve_calls_app, agent_calls_app, agent_builds_app.
  repeat split; try reflexivity; [apply app_nil_r | apply Nat.add_0_r].
Qed.

Lemma chat_store_failure_witness :
  let down : Collaborators :=
    {| llm_invoke := Scenario.llm_replies "YES";
       retriever_invoke := λ _ _, inl (mkExn "ConnectionError" "store is down");
       agent_invoke := Scenario.agent_returns (Scenario.says "x") |} in
  well_formed init_world
  ∧ ¬ is_substring "NO" (normalized "YES")
  ∧ ∃ w',
      chat down {| ChatRequest.message := "Fee structure?" |} init_world
        = (HTTPException 500 "store is down", w')
      ∧ retrieve_calls (trace w') = retrieve_calls (trace init_world) ++ ["Fee structure?"]
      ∧ agent_calls (trace w') = agent_calls (trace init_world)
      ∧ agent_builds (trace w') = agent_builds (trace init_world).
Proof.
  intros down.
  assert (Hno : ¬ is_substring "NO" (normalized "YES")) by now apply contains_false.
  split; [left; reflexivity|]. split; [exact Hno|].
  apply (chat_store_failure down {| ChatRequest.message := "Fee structure?" |}
           init_world "YES" (mkExn "ConnectionError" "store is down"));
    [left; reflexivity | reflexivity | exact Hno | reflexivity].
Defined.

(** X14. One citation per passage, in order.  When every passage of the
    result can be cited, the endpoint answers 200 with the result's answer
    and a list of citations that has one entry for each passage, the
    citation of that passage, in the order of the passages. *)
Theorem chat_cites_every_passage
    (rag_run : string → M ResultDict) (request : ChatRequest.t)
    (w w' : World) (result : ResultDict) :
  rag_run (ChatRequest.message request) w = (Ok result, w') →
  (∀ d, d ∈ default [] (r_retrieved_docs result) → ∃ c, cite d = Ok c) →
  ∃ cs,
    chat_endpoint (Some rag_run) request w =
      (Http200 {| ChatResponse.answer := default "" (r_answer result);
                  ChatResponse.citations := cs |}, w')
    ∧ Forall2 (λ d c, cite d = Ok c) (default [] (r_retrieved_docs result)) cs
    ∧ length cs = length (default [] (r_retrieved_docs result)).
Proof.
  intros Hrun Hall. unfold chat_endpoint. rewrite Hrun.
  destruct (mapM_Ok cite _ Hall) as (cs & Hcs & HF).
  exists cs. split; [|split; [exact HF | symmetry; exact (Forall2_length _ _ _ HF)]].
  destruct (r_retrieved_docs result) as [[|d ds]|]; cbn [default from_option id] in *.
  - injection Hcs as <-. reflexivity.
  - rewrite Hcs. reflexivity.
  - injection Hcs as <-. reflexivity.
Qed.

Lemma chat_cites_every_passage_witness :
  let two := λ (_ : string) (w : World),
    (Ok {| r_question := Some "q";
           r_retrieved_docs := Some [Scenario.first_page; Scenario.page_12];
           r_answer := Some "a" |}, w) in
  ∃ cs,
    chat_endpoint (Some two) {| ChatRequest.message := "q" |} init_world =
      (Http200 {| ChatResponse.answer := "a"; ChatResponse.citations := cs |}, init_world)
    ∧ Forall2 (λ d c, cite d = Ok c) [Scenario.first_page; Scenario.page_12] cs
    ∧ length cs = 2.
Proof.
  intros two.
  apply (chat_cites_every_passage two {| ChatRequest.message := "q" |}
           init_world init_world
           {| r_question := Some "q";
              r_retrieved_docs := Some [Scenario.first_page; Scenario.page_12];
              r_answer := Some "a" |} eq_refl).
  intros d Hd. cbn in Hd.
  apply elem_of_cons in Hd as [-> | Hd]; [eexists; vm_compute; reflexivity|].
  apply list_elem_of_singleton in Hd as ->. eexists. vm_compute. reflexivity.
Defined.

Lemma append_length (s t : string) :
  String.length (s +:+ t) = String.length s + String.length t.
Proof.
  induction s as [|c s IH]; [reflexivity|].
  rewrite append_cons. cbn [String.length]. now rewrite IH.
Qed.

(** X15. The snippet of a citation.  Whenever a passage can be cited, the
    citation's text is a prefix of the passage of at most 200 characters,
    followed by three full stops: it is never longer than 203 characters,
    and a passage of fewer than 200 characters is quoted whole. *)
Theorem citation_snippet (d : Document.t) (c : Citation.t) :
  cite d = Ok c →
  ∃ head rest,
    Citation.page_content c = head +:+ "..."
    ∧ Document.page_content d = head +:+ rest
    ∧ String.length head = Nat.min 200 (String.length (Document.page_content d))
    ∧ String.length (Citation.page_content c) ≤ 203.
Proof.
  unfold cite. intros Hc.
  destruct (validate_str _) as [s|e]; [|discriminate].
  injection Hc as <-. cbn [Citation.page_content].
  destruct (slice_to_spec 200 (Document.page_content d)) as (rest & Hrest & Hlen).
  exists (Text.slice_to 200 (Document.page_content d)), rest.
  split; [reflexivity|]. split; [exact Hrest|]. split; [exact Hlen|].
  rewrite append_length, Hlen. cbn [String.length]. lia.
Qed.

Lemma citation_snippet_witness :
  cite Scenario.page_12
    = Ok {| Citation.source := "prospectus.pdf (Page 12)";
            Citation.page_content := "The fee structure is given below...." |}
  ∧ ∃ head rest,
      "The fee structure is given below...." = head +:+ "..."
      ∧ Document.page_content Scenario.page_12 = head +:+ rest
      ∧ String.length head
        = Nat.min 200 (String.length (Document.page_content Scenario.page_12))
      ∧ String.length "The fee structure is given below...." ≤ 203.
Proof.
  split; [vm_compute; reflexivity|].
  apply (citation_snippet Scenario.page_12
           {| Citation.source := "prospectus.pdf (Page 12)";
              Citation.page_content := "The fee structure is given below...." |}).
  vm_compute. reflexivity.
Defined.

(** X16. A passage without a source.  When the metadata has no "source"
    key the passage is still cited, under the name "Unknown Source",
    followed by its page when it has one that counts as true. *)
Theorem citation_unknown_source (d : Document.t) :
  Document.metadata d !! "source" = None →
  ∃ c, cite d = Ok c
       ∧ Citation.source c =
           match Document.metadata d !! "page" with
           | Some p => if truthy p
                       then "Unknown Source (Page " +:+ py_str p +:+ ")"
                       else "Unknown Source"
           | None => "Unknown Source"
           end.
Proof.
  intros Hs. unfold cite. rewrite Hs.
  destruct (Document.metadata d !! "page") as [p|]; cbn [default from_option id].
  - destruct (truthy p); eexists; split; reflexivity.
  - eexists; split; reflexivity.
Qed.

Lemma citation_unknown_source_witness :
  let bare := {| Document.page_content := "Hostel rules";
                 Document.metadata := <["page" := PyInt 3]> ∅ |} in
  Document.metadata bare !! "source" = None
  ∧ ∃ c, cite bare = Ok c
         ∧ Citation.source c =
             match Document.metadata bare !! "page" with
             | Some p => if truthy p
                         then "Unknown Source (Page " +:+ py_str p +:+ ")"
                         else "Unknown Source"
             | None => "Unknown Source"
             end.
Proof.
  intros bare. split; [reflexivity|].
  apply (citation_unknown_source bare). reflexivity.
Defined.

(** ** The chat page *)

(** X17. The citations the chat page stores.  The page stores a citation
    at position i exactly when the answer does not contain "I only answer",
    i is below three, and the result has a passage at position i; the
    citation is then that passage's label and snippet.  So there are never
    more than three, and none for a refusal, whatever was retrieved. *)
Theorem citation_data_spec
    (answer_text : string) (retrieved_docs : option (list Document.t))
    (i : nat) (c : FrontCitation.t) :
  citation_data answer_text retrieved_docs !! i = Some c
  ↔ ¬ is_substring "I only answer" answer_text
    ∧ i < 3
    ∧ ∃ d, default [] retrieved_docs !! i = Some d
           ∧ c = {| FrontCitation.source := frontend_source d;
                    FrontCitation.text :=
                      Text.slice_to 200 (Document.page_content d) +:+ "..." |}.
Proof.
  unfold citation_data.
  destruct retrieved_docs as [[|d0 ds]|]; cbn [default from_option id].
  - split; [discriminate | intros (_ & _ & d & Hd & _); discriminate].
  - destruct (Text.contains "I only answer" answer_text) eqn:Hc; cbn [negb].
    + apply contains_spec in Hc. split; [discriminate | tauto].
    + apply contains_false in Hc. rewrite list_lookup_fmap. split.
      * intros H. apply fmap_Some in H as (d & Hd & ->).
        apply lookup_take_Some in Hd as [Hd Hi]. eauto 6.
      * intros (_ & Hi & d & Hd & ->).
        rewrite lookup_take_lt, Hd by exact Hi. reflexivity.
  - split; [discriminate | intros (_ & _ & d & Hd & _); discriminate].
Qed.

(** X18. The chat history only grows.  Handling a prompt keeps every
    earlier message, appends the user's message, and after it at most one
    more: the assistant's message, with no more than three citations. The
    assistant's message is missing exactly when no system is loaded, in
    which case nothing else happens, or when an exception ended the
    handling. *)
Theorem handle_prompt_history
    (rag_system : option (string → M ResultDict)) (prompt : string)
    (history : list ChatMessage.t) (w : World) :
  let out := handle_prompt rag_system prompt history w in
  let user := {| ChatMessage.role := "user"; ChatMessage.content := prompt;
                 ChatMessage.citations := None |} in
  ∃ tail,
    fst (fst out) = history ++ user :: tail
    ∧ (tail = []
       ∨ ∃ a cits, tail = [ {| ChatMessage.role := "assistant";
                               ChatMessage.content := a;
                               ChatMessage.citations := Some cits |} ]
                   ∧ length cits ≤ 3
                   ∧ snd (fst out) = None)
    ∧ (tail = [] ↔ rag_system = None ∨ snd (fst out) ≠ None)
    ∧ (rag_system = None → snd (fst out) = None ∧ snd out = w).
Proof.
  intros out user. unfold out, handle_prompt. fold user.
  destruct rag_system as [rag_run|].
  - destruct (rag_run prompt w) as [[result|e] w'].
    + destruct (r_answer result) as [a|].
      * eexists [_]. cbn [fst snd]. split; [now rewrite <- app_assoc|].
        split; [|split; [|discriminate]].
        -- right. eexists _, _. split; [reflexivity|]. split; [|reflexivity].
           unfold citation_data. destruct (r_retrieved_docs result) as [[|d ds]|];
             [cbn; lia | | cbn; lia].
           destruct (negb _); [|cbn; lia].
           rewrite length_fmap, length_take. lia.
        -- split; [discriminate | intros [H | H]; [discriminate | now destruct H]].
      * exists []. cbn [fst snd]. split; [reflexivity|].
        split; [now left|]. split; [|discriminate].
        split; [intros _; right; discriminate | reflexivity].
    + exists []. cbn [fst snd]. split; [reflexivity|].
      split; [now left|]. split; [|discriminate].
      split; [intros _; right; discriminate | reflexivity].
  - exists []. cbn [fst snd]. split; [reflexivity|].
    split; [now left|]. split; [|intros _; split; reflexivity].
    split; [intros _; now left | reflexivity].
Qed.

(** The chat page on the three scenarios. *)
Example page_scenarios :
  fst (fst (handle_prompt (Some (run Scenario.refusing)) "Hi" [] init_world))
    = [ {| ChatMessage.role := "user"; ChatMessage.content := "Hi";
           ChatMessage.citations := None |};
        {| ChatMessage.role := "assistant";
           ChatMessage.content := "I only answer department information.";
           ChatMessage.citations := Some [] |} ]
  ∧ citation_data "I only answer department information." (Some [Scenario.page_12]) = []
  ∧ citation_data "The HOD is Dr. X." (Some (replicate 5 Scenario.web_page))
    = replicate 3 {| FrontCitation.source := "https://uet.edu.pk (Page N/A)";
                     FrontCitation.text := "Admissions open in August...." |}.
Proof. repeat split; vm_compute; reflexivity. Qed.

(** The retriever tool on a store with two passages. *)
Example tool_scenario :
  fst (retriever_tool_fn Scenario.answering "fee" init_world)
  = Ok ("[1] prospectus.pdf" +:+ Text.nl +:+ "The fee structure is given below."
        +:+ Text.nl +:+ Text.nl
        +:+ "[2] https://uet.edu.pk" +:+ Text.nl +:+ "Admissions open in August.").
Proof. vm_compute. reflexivity. Qed.
